(** * edgar_client/client.py: the filing-history pipeline

    A shallow embedding of [EDGARClient.get_filings] and
    [EDGARClient._parse_filings] (src/edgar_client/client.py) together with
    the fragments of Python, [datetime], [pydantic] and [httpx] they rest on,
    and the properties of the pipeline stated in the specification.

    Conventions of the embedding.
    - A decoded JSON document is a [json] value; a Python [dict] with string
      keys is a [gmap string json], a Python [list] is a [list].
    - A Python [str] is a [string] read as a sequence of code points below 256.
    - A Python [int] is a [Z]; an index produced by [range] is a [nat].
    - A call that may raise is a [result]: [Ok v] or [Raise e].
    - The requests sent by the client are recorded in a trace.
    - What the client leaves to a library on values of any shape (see
      [PyLib]) is a parameter of the development.
    The warnings printed by [_parse_filings] and the delays of the rate
    limiter have no part in the values returned and are left out. *)

From Stdlib Require Import ZArith QArith.QArith_base String Ascii List Lia Bool.
From stdpp Require Import base option list gmap strings.

Set Warnings "-register-all".

(** ** Exceptions and results *)

(** The exception classes that can leave the code under study.  The two
    subclasses of [ValueError] that matter are kept apart so that a trace of
    the source can name them. *)
Inductive exn : Type :=
  | KeyError
  | IndexError
  | ValueError
  | ValidationError      (* pydantic_core.ValidationError, a ValueError *)
  | JSONDecodeError      (* json.JSONDecodeError, a ValueError *)
  | TypeError
  | AttributeError
  | HTTPError (code : Z). (* httpx.HTTPError family; the payload tells faults apart *)

(** [isinstance e ValueError]. *)
Definition is_ValueError (e : exn) : bool :=
  match e with
  | ValueError | ValidationError | JSONDecodeError => true
  | _ => false
  end.

(** The handler of [_parse_filings]:
    [except (KeyError, IndexError, ValueError)]. *)
Definition handled (e : exn) : bool :=
  match e with
  | KeyError | IndexError => true
  | _ => is_ValueError e
  end.

Inductive result (A : Type) : Type :=
  | Ok (a : A)
  | Raise (e : exn).
Arguments Ok {A} a.
Arguments Raise {A} e.

Definition result_bind {A B} (f : A → result B) (r : result A) : result B :=
  match r with
  | Ok a => f a
  | Raise e => Raise e
  end.

#[global] Instance result_ret : MRet result := λ A a, Ok a.
#[global] Instance result_mbind : MBind result := λ A B f r, result_bind f r.
#[global] Instance result_fmap : FMap result := λ A B f r, result_bind (λ a, Ok (f a)) r.

(** [o] if present, else raise [e]. *)
Definition or_raise {A} (e : exn) (o : option A) : result A :=
  match o with
  | Some a => Ok a
  | None => Raise e
  end.

(** ** JSON values as Python objects *)

(** A Python [float] as [json.loads] can produce it. *)
Inductive pyfloat : Type :=
  | FFinite (q : Q)
  | FInfinity (negative : bool)
  | FNaN.

Inductive json : Type :=
  | JNull
  | JBool (b : bool)
  | JInt (z : Z)
  | JFloat (f : pyfloat)
  | JStr (s : string)
  | JArr (l : list json)
  | JObj (m : gmap string json).

(** Truth value testing, [bool(v)]. *)
Definition py_bool (v : json) : bool :=
  match v with
  | JNull => false
  | JBool b => b
  | JInt z => negb (Z.eqb z 0)
  | JFloat (FFinite q) => negb (Z.eqb (Qnum q) 0)
  | JFloat _ => true
  | JStr s => negb (String.eqb s "")
  | JArr l => match l with [] => false | _ => true end
  | JObj m => negb (Nat.eqb (size m) 0)
  end.

(** [len(v)]. *)
Definition py_len (v : json) : result nat :=
  match v with
  | JStr s => Ok (String.length s)
  | JArr l => Ok (length l)
  | JObj m => Ok (size m)
  | _ => Raise TypeError
  end.

(** [v[k]] for a string key [k]. *)
Definition getitem_key (v : json) (k : string) : result json :=
  match v with
  | JObj m => or_raise KeyError (m !! k)
  | _ => Raise TypeError
  end.

(** [v[i]] for an index [i] taken from [range(...)].  A decoded JSON object
    has string keys only, so an integer subscript of it is a [KeyError]. *)
Definition getitem_idx (v : json) (i : nat) : result json :=
  match v with
  | JArr l => or_raise IndexError (l !! i)
  | JStr s => or_raise IndexError ((λ c, JStr (String c EmptyString)) <$> String.get i s)
  | JObj _ => Raise KeyError
  | _ => Raise TypeError
  end.

(** [m.get(k, default)] on a dict; [m.get(k)] has the default [None]. *)
Definition dict_get_default (m : gmap string json) (k : string) (d : json) : json :=
  default d (m !! k).

(** [[v] * n]. *)
Definition list_repeat (v : json) (n : nat) : json := JArr (replicate n v).

(** [x or y]. *)
Definition py_or (x y : json) : json := if py_bool x then x else y.

(** The values a [for] loop draws from [v]. The order in which a dict yields
    its keys is the order of [map_to_list]; the client subscripts every value
    it draws with a string, which fails on each key alike. *)
Definition py_iter (v : json) : result (list json) :=
  match v with
  | JArr l => Ok l
  | JStr s => Ok ((λ c, JStr (String c EmptyString)) <$> list_ascii_of_string s)
  | JObj m => Ok ((λ kv, JStr kv.1) <$> map_to_list m)
  | _ => Raise TypeError
  end.

(** ** Python string methods *)

Definition code (c : ascii) : N := N_of_ascii c.

(** [str.isspace] on one code point below 256. *)
Definition is_space (c : ascii) : bool :=
  let n := code c in
  ((9 <=? n) && (n <=? 13) || (28 <=? n) && (n <=? 32)
   || (n =? 133) || (n =? 160))%N.

Definition is_digit (c : ascii) : bool :=
  let n := code c in ((48 <=? n) && (n <=? 57))%N.

Definition digit_val (c : ascii) : Z := Z.of_N (code c) - 48.

(** [s.lstrip()], [s.rstrip()] and [s.strip()]. *)
Fixpoint lstrip (s : string) : string :=
  match s with
  | String c s' => if is_space c then lstrip s' else s
  | EmptyString => EmptyString
  end.

Fixpoint rstrip (s : string) : string :=
  match s with
  | String c s' =>
      match rstrip s' with
      | EmptyString => if is_space c then EmptyString else String c EmptyString
      | r => String c r
      end
  | EmptyString => EmptyString
  end.

Definition py_strip (s : string) : string := rstrip (lstrip s).

(** [s.split(sep)] for a separator of one character: the pieces between the
    separators, at least one piece. *)
Fixpoint py_split (sep : ascii) (s : string) : list string :=
  match s with
  | EmptyString => [EmptyString]
  | String c s' =>
      if Ascii.eqb c sep then EmptyString :: py_split sep s'
      else match py_split sep s' with
           | piece :: rest => String c piece :: rest
           | [] => [String c EmptyString]
           end
  end.

(** [s.startswith(p)]. *)
Fixpoint startswith (p s : string) : bool :=
  match p, s with
  | EmptyString, _ => true
  | String a p', String b s' => Ascii.eqb a b && startswith p' s'
  | String _ _, EmptyString => false
  end.

(** [s.replace(old, new)] for a non-empty [old]: occurrences are found from
    the left and do not overlap.  [skip] counts the characters of the current
    occurrence still to be passed over. *)
Fixpoint replace_from (old new : string) (skip : nat) (s : string) : string :=
  match s with
  | EmptyString => EmptyString
  | String c s' =>
      match skip with
      | S k => replace_from old new k s'
      | O =>
          if startswith old s
          then new +:+ replace_from old new (String.length old - 1) s'
          else String c (replace_from old new 0 s')
      end
  end.

(** With an empty [old], Python puts [new] before every character and at the
    end. *)
Fixpoint intersperse_str (new s : string) : string :=
  match s with
  | EmptyString => new
  | String c s' => new +:+ String c (intersperse_str new s')
  end.

Definition py_replace (old new s : string) : string :=
  match old with
  | EmptyString => intersperse_str new s
  | _ => replace_from old new 0 s
  end.

(** *** [int(s)] for a [str]

    Leading and trailing whitespace is dropped, then an optional sign and
    decimal digits in which single underscores may separate digits.  The
    whitespace [int] drops is narrower than [str.strip]: the ASCII controls
    0x1c-0x1f are kept.  The limit on the number of digits of CPython 3.11
    (4300 by default, adjustable) is not part of the model. *)

Definition is_int_space (c : ascii) : bool :=
  let n := code c in
  ((9 <=? n) && (n <=? 13) || (n =? 32) || (n =? 133) || (n =? 160))%N.

Fixpoint int_lstrip (s : string) : string :=
  match s with
  | String c s' => if is_int_space c then int_lstrip s' else s
  | EmptyString => EmptyString
  end.

(** Digits with single underscores between them, followed by whitespace
    only.  [acc] is the value read so far and [after_digit] tells whether
    the previous character was a digit. *)
Fixpoint int_digits (s : string) (acc : Z) (after_digit : bool) : option Z :=
  match s with
  | EmptyString => if after_digit then Some acc else None
  | String c s' =>
      if is_digit c then int_digits s' (10 * acc + digit_val c) true
      else if after_digit then
        if Ascii.eqb c "_" then
          match s' with
          | String d _ => if is_digit d then int_digits s' acc false else None
          | EmptyString => None
          end
        else match int_lstrip s with
             | EmptyString => Some acc
             | _ => None
             end
      else None
  end.

Definition py_int (s : string) : option Z :=
  match int_lstrip s with
  | String "-" s' => Z.opp <$> int_digits s' 0 false
  | String "+" s' => int_digits s' 0 false
  | s' => int_digits s' 0 false
  end.

(** *** [format(n, "010d")] *)

Definition digit_char (d : Z) : ascii := ascii_of_N (Z.to_N (48 + d)).

(** The decimal digits of [n >= 0], most significant first; [fuel] bounds
    the number of digits. *)
Fixpoint dec_digits (fuel : nat) (n : Z) (acc : string) : string :=
  match fuel with
  | O => acc
  | S k =>
      let acc' := String (digit_char (n mod 10)) acc in
      if (n <? 10)%Z then acc' else dec_digits k (n / 10) acc'
  end.

Definition dec (n : Z) : string :=
  dec_digits (S (Z.to_nat (Z.log2 n))) n EmptyString.

Fixpoint zeros (k : nat) : string :=
  match k with
  | O => EmptyString
  | S k' => String "0" (zeros k')
  end.

(** Zero padding is sign-aware: the sign comes first and counts in the
    width; a number too long for the width is not cut. *)
Definition format_0wd (width : nat) (n : Z) : string :=
  if (n <? 0)%Z
  then let d := dec (- n) in
       String "-" (zeros (width - 1 - String.length d) +:+ d)
  else let d := dec n in zeros (width - String.length d) +:+ d.

Definition format_010d (n : Z) : string := format_0wd 10 n.

(** ** [datetime] *)

(** A [datetime.datetime] object.  [tzinfo] is [None] for a naive object and
    the UTC offset in microseconds for an aware one. *)
Record datetime : Type := mk_datetime {
  year : Z;
  month : Z;
  day : Z;
  hour : Z;
  minute : Z;
  second : Z;
  microsecond : Z;
  tzinfo : option Z
}.

Definition is_leap (y : Z) : bool :=
  ((y mod 4 =? 0) && (negb (y mod 100 =? 0) || (y mod 400 =? 0)))%Z.

Definition days_in_month (y m : Z) : Z :=
  if (m =? 2)%Z then (if is_leap y then 29 else 28)%Z
  else if ((m =? 4) || (m =? 6) || (m =? 9) || (m =? 11))%Z then 30%Z
  else 31%Z.

(** The checks of the [date] constructor. *)
Definition valid_date (y m d : Z) : bool :=
  ((1 <=? y) && (y <=? 9999) && (1 <=? m) && (m <=? 12)
   && (1 <=? d) && (d <=? days_in_month y m))%Z.

(** The checks of the [time] fields of the [datetime] constructor. *)
Definition valid_time (h mi s us : Z) : bool :=
  ((0 <=? h) && (h <=? 23) && (0 <=? mi) && (mi <=? 59)
   && (0 <=? s) && (s <=? 59) && (0 <=? us) && (us <=? 999999))%Z.

(** [timezone(offset)] accepts offsets strictly between -24h and 24h. *)
Definition valid_offset (off : Z) : bool :=
  ((-86400000000 <? off) && (off <? 86400000000))%Z.

Definition days_before_year (y : Z) : Z :=
  let p := (y - 1)%Z in (p * 365 + p / 4 - p / 100 + p / 400)%Z.

Fixpoint days_before_month_nat (y : Z) (m : nat) : Z :=
  match m with
  | O => 0%Z
  | S k => (days_before_month_nat y k + days_in_month y (Z.of_nat (S k)))%Z
  end.

(** [d.toordinal()]. *)
Definition toordinal (d : datetime) : Z :=
  (days_before_year (year d)
   + days_before_month_nat (year d) (Z.to_nat (month d - 1)) + day d)%Z.

(** The wall-clock reading in microseconds, counted from the start of the
    day of ordinal 0. *)
Definition wall_micros (d : datetime) : Z :=
  ((((toordinal d * 24 + hour d) * 60 + minute d) * 60 + second d) * 1000000
   + microsecond d)%Z.

Definition fields (d : datetime) : list Z :=
  [year d; month d; day d; hour d; minute d; second d; microsecond d].

(** Comparison of tuples. *)
Fixpoint lex_cmp (a b : list Z) : comparison :=
  match a, b with
  | [], [] => Eq
  | [], _ :: _ => Lt
  | _ :: _, [] => Gt
  | x :: a', y :: b' =>
      match (x ?= y)%Z with
      | Eq => lex_cmp a' b'
      | c => c
      end
  end.

(** [datetime._cmp]: naive objects compare field by field, aware objects with
    equal offsets too, aware objects with different offsets by their
    instants; a naive object cannot be ordered against an aware one. *)
Definition dt_cmp (a b : datetime) : result comparison :=
  match tzinfo a, tzinfo b with
  | None, None => Ok (lex_cmp (fields a) (fields b))
  | Some oa, Some ob =>
      if (oa =? ob)%Z then Ok (lex_cmp (fields a) (fields b))
      else Ok ((wall_micros a - oa ?= wall_micros b - ob)%Z)
  | _, _ => Raise TypeError
  end.

(** [a < b] and [a > b]. *)
Definition dt_lt (a b : datetime) : result bool :=
  c ← dt_cmp a b; Ok (match c with Lt => true | _ => false end).
Definition dt_gt (a b : datetime) : result bool :=
  c ← dt_cmp a b; Ok (match c with Gt => true | _ => false end).

(** ** [datetime.strptime]

    CPython turns a format into a regular expression, one named group per
    directive, matches it against the text with the backtracking engine of
    [re] under IGNORECASE, and builds the object from the groups.  The
    expressions below are those of [_strptime.TimeRE] (CPython 3.7 to 3.12). *)

Inductive regex : Type :=
  | Eps
  | Cls (p : ascii → bool)
  | Cat (r1 r2 : regex)
  | Alt (r1 r2 : regex)
  | Grp (name : string) (r : regex).

(** [rmatch r s caps k] matches [r] at the head of [s] and hands the text it
    consumed, the rest of the input and the groups closed so far to [k]; when
    [k] fails the next alternative is tried, in the order of [re]. *)
Fixpoint rmatch {A} (r : regex) (s : string) (caps : list (string * string))
    (k : string → string → list (string * string) → option A) : option A :=
  match r with
  | Eps => k EmptyString s caps
  | Cls p =>
      match s with
      | String c s' => if p c then k (String c EmptyString) s' caps else None
      | EmptyString => None
      end
  | Cat r1 r2 =>
      rmatch r1 s caps (λ t1 s1 caps1,
        rmatch r2 s1 caps1 (λ t2 s2 caps2, k (t1 +:+ t2) s2 caps2))
  | Alt r1 r2 =>
      match rmatch r1 s caps k with
      | Some a => Some a
      | None => rmatch r2 s caps k
      end
  | Grp name r1 =>
      rmatch r1 s caps (λ t s' caps', k t s' ((name, t) :: caps'))
  end.

Definition in_range (lo hi : ascii) : ascii → bool :=
  λ c, ((code lo <=? code c) && (code c <=? code hi))%N.
Definition Rng (lo hi : ascii) : regex := Cls (in_range lo hi).
Definition Chr (a : ascii) : regex := Cls (Ascii.eqb a).
(** A letter of the format under IGNORECASE. *)
Definition ChrI (upper lower : ascii) : regex :=
  Cls (λ c, Ascii.eqb upper c || Ascii.eqb lower c).
Definition D : regex := Cls is_digit.
(** [r?], greedy. *)
Definition Opt (r : regex) : regex := Alt r Eps.

Notation "r1 ⋅ r2" := (Cat r1 r2) (at level 41, right associativity).
Notation "r1 ∣ r2" := (Alt r1 r2) (at level 42, right associativity).

(** [(?P<Y>\d\d\d\d)] *)
Definition re_Y : regex := Grp "Y" (D ⋅ D ⋅ D ⋅ D).
(** [(?P<m>1[0-2]|0[1-9]|[1-9])] *)
Definition re_m : regex :=
  Grp "m" (Chr "1" ⋅ Rng "0" "2" ∣ Chr "0" ⋅ Rng "1" "9" ∣ Rng "1" "9").
(** [(?P<d>3[0-1]|[1-2]\d|0[1-9]|[1-9]| [1-9])] *)
Definition re_d : regex :=
  Grp "d" (Chr "3" ⋅ Rng "0" "1" ∣ Rng "1" "2" ⋅ D ∣ Chr "0" ⋅ Rng "1" "9"
           ∣ Rng "1" "9" ∣ Chr " " ⋅ Rng "1" "9").
(** [(?P<H>2[0-3]|[0-1]\d|\d)] *)
Definition re_H : regex :=
  Grp "H" (Chr "2" ⋅ Rng "0" "3" ∣ Rng "0" "1" ⋅ D ∣ D).
(** [(?P<M>[0-5]\d|\d)] *)
Definition re_M : regex := Grp "M" (Rng "0" "5" ⋅ D ∣ D).
(** [(?P<S>6[0-1]|[0-5]\d|\d)] *)
Definition re_S : regex :=
  Grp "S" (Chr "6" ⋅ Rng "0" "1" ∣ Rng "0" "5" ⋅ D ∣ D).
(** [(?P<z>[+-]\d\d:?[0-5]\d(:?[0-5]\d(\.\d{1,6})?)?|(?-i:Z))] *)
Definition re_z : regex :=
  Grp "z"
    ((Cls (λ c, Ascii.eqb c "+" || Ascii.eqb c "-")) ⋅ D ⋅ D ⋅ Opt (Chr ":")
       ⋅ Rng "0" "5" ⋅ D
       ⋅ Opt (Opt (Chr ":") ⋅ Rng "0" "5" ⋅ D
              ⋅ Opt (Chr "." ⋅ D ⋅ Opt (D ⋅ Opt (D ⋅ Opt (D ⋅ Opt (D ⋅ Opt D))))))
     ∣ Chr "Z").

(** The expression of the format ["%Y-%m-%d"]. *)
Definition re_date : regex := re_Y ⋅ Chr "-" ⋅ re_m ⋅ Chr "-" ⋅ re_d.
(** The expression of the format ["%Y-%m-%dT%H:%M:%S%z"]. *)
Definition re_datetime_z : regex :=
  re_Y ⋅ Chr "-" ⋅ re_m ⋅ Chr "-" ⋅ re_d ⋅ ChrI "T" "t"
    ⋅ re_H ⋅ Chr ":" ⋅ re_M ⋅ Chr ":" ⋅ re_S ⋅ re_z.

(** [format_regex.match(data_string)] followed by the test that nothing of
    the text is left; [None] stands for the [ValueError] raised otherwise. *)
Definition full_match (r : regex) (s : string) : option (list (string * string)) :=
  match rmatch r s [] (λ _ rest caps, Some (rest, caps)) with
  | Some (EmptyString, caps) => Some caps
  | _ => None
  end.

(** [found_dict[name]]. *)
Fixpoint group (name : string) (caps : list (string * string)) : option string :=
  match caps with
  | [] => None
  | (n, t) :: caps' => if String.eqb n name then Some t else group name caps'
  end.

(** [int(found_dict[name])]. *)
Definition int_group (name : string) (caps : list (string * string)) : option Z :=
  t ← group name caps; py_int t.

(** [s[i:j]] for [0 <= i <= j]. *)
Definition slice (i j : nat) (s : string) : string := String.substring i (j - i) s.
(** [s[i:]]. *)
Definition slice_from (i : nat) (s : string) : string :=
  String.substring i (String.length s - i) s.

(** The ['z'] branch of [_strptime]: the UTC offset in microseconds. *)
Definition gmtoff_micros (z : string) : option Z :=
  if String.eqb z "Z" then Some 0%Z
  else
    z1 ← (if decide (String.get 3 z = Some ":"%char)
          then let z' := slice 0 3 z +:+ slice_from 4 z in
               if decide (5 < String.length z')%nat
               then if decide (String.get 5 z' = Some ":"%char)
                    then Some (slice 0 5 z' +:+ slice_from 6 z')
                    else None
               else Some z'
          else Some z);
    hours ← py_int (slice 1 3 z1);
    minutes ← py_int (slice 3 5 z1);
    seconds ← (match slice 5 7 z1 with
               | EmptyString => Some 0%Z
               | t => py_int t
               end);
    let remainder := slice_from 8 z1 in
    fraction ← py_int (remainder +:+ zeros (6 - String.length remainder));
    let off := (((hours * 60 * 60) + (minutes * 60) + seconds) * 1000000 + fraction)%Z in
    Some (if startswith "-" z1 then (- off)%Z else off).

(** [datetime.strptime(s, "%Y-%m-%d")]; [None] is a [ValueError]. *)
Definition strptime_date (s : string) : option datetime :=
  caps ← full_match re_date s;
  y ← int_group "Y" caps;
  m ← int_group "m" caps;
  d ← int_group "d" caps;
  if valid_date y m d then Some (mk_datetime y m d 0 0 0 0 None) else None.

(** [datetime.strptime(s, "%Y-%m-%dT%H:%M:%S%z")]; [None] is a [ValueError]. *)
Definition strptime_datetime_z (s : string) : option datetime :=
  caps ← full_match re_datetime_z s;
  y ← int_group "Y" caps;
  m ← int_group "m" caps;
  d ← int_group "d" caps;
  h ← int_group "H" caps;
  mi ← int_group "M" caps;
  sec ← int_group "S" caps;
  z ← group "z" caps;
  off ← gmtoff_micros z;
  if valid_date y m d && valid_time h mi sec 0 && valid_offset off
  then Some (mk_datetime y m d h mi sec 0 (Some off)) else None.

(** ** Library behaviour the client does not fix

    Three library functions are reached by the client on values whose
    treatment is the library's business alone.  The development is parametric
    in them. *)
Class PyLib : Type := {
  (** pydantic's lax coercion to [int] of a value that is not an [int]
      already (a [bool], a [float], a numeric [str]); [None] is a
      validation error. *)
  lax_int : json → option Z;
  (** [str(v)] for a decoded JSON value that is not a [str], as used by an
      f-string. *)
  format_value : json → string;
  (** [urllib.parse.urljoin(base, ref)]. *)
  urljoin : string → string → string
}.

(** One instance, to run the client on concrete documents. *)
Definition sample_lib : PyLib := {|
  lax_int := λ v, match v with JBool b => Some (if b then 1 else 0)%Z | _ => None end;
  format_value := λ _, "?";
  urljoin := λ base ref, base +:+ "/" +:+ ref
|}.

(** ** The [Filing] model *)

Record Filing : Type := mk_Filing {
  accession_number : string;
  form : string;
  filing_date : datetime;
  report_date : option datetime;
  acceptance_time : datetime;
  act : option string;
  size : Z;
  items : option (list string);
  is_xbrl : bool;
  is_inline_xbrl : bool;
  primary_document : string;
  primary_document_description : string
}.

(** The dict [filing_dict] assembled for one record.  The three keys set
    under a condition are optional; the other values are as read. *)
Record filing_dict : Type := mk_filing_dict {
  raw_accession_number : json;
  raw_form : json;
  raw_filing_date : datetime;
  raw_acceptance_time : datetime;
  raw_size : json;
  raw_is_xbrl : bool;
  raw_is_inline_xbrl : bool;
  raw_primary_document : json;
  raw_primary_document_description : json;
  raw_report_date : option datetime;
  raw_act : option json;
  raw_items : option (list string)
}.

(** A field annotated [str]: only a [str] is accepted. *)
Definition validate_str (v : json) : option string :=
  match v with
  | JStr s => Some s
  | _ => None
  end.

(** A field annotated [int]. *)
Definition validate_int {lib : PyLib} (v : json) : option Z :=
  match v with
  | JInt z => Some z
  | _ => lax_int v
  end.

(** A field annotated [Optional[str]] with default [None]; [o] is [None]
    when the key is not in the dict. *)
Definition validate_opt_str (o : option json) : option (option string) :=
  match o with
  | None => Some None
  | Some JNull => Some None
  | Some v => Some <$> validate_str v
  end.

(** [Filing.model_validate(filing_dict)]. *)
Definition model_validate {lib : PyLib} (d : filing_dict) : result Filing :=
  or_raise ValidationError
    (an ← validate_str (raw_accession_number d);
     fo ← validate_str (raw_form d);
     ac ← validate_opt_str (raw_act d);
     sz ← validate_int (raw_size d);
     pd ← validate_str (raw_primary_document d);
     pdd ← validate_str (raw_primary_document_description d);
     Some (mk_Filing an fo (raw_filing_date d) (raw_report_date d)
             (raw_acceptance_time d) ac sz (raw_items d) (raw_is_xbrl d)
             (raw_is_inline_xbrl d) pd pdd)).

(** ** [EDGARClient._parse_filings] *)

(** [data.get(k, d)]: a method of dicts. *)
Definition get_method (data : json) (k : string) (d : json) : result json :=
  match data with
  | JObj m => Ok (dict_get_default m k d)
  | _ => Raise AttributeError
  end.

(** [data[k][i]]. *)
Definition column_at (data : json) (k : string) (i : nat) : result json :=
  col ← getitem_key data k; getitem_idx col i.

(** [datetime.strptime(v, "%Y-%m-%d")]: the first argument must be a [str]. *)
Definition py_strptime_date (v : json) : result datetime :=
  match v with
  | JStr s => or_raise ValueError (strptime_date s)
  | _ => Raise TypeError
  end.

(** [datetime.strptime(v.replace(".000Z", "+0000"), "%Y-%m-%dT%H:%M:%S%z")]:
    [replace] is a method of [str]. *)
Definition parse_acceptance (v : json) : result datetime :=
  match v with
  | JStr s => or_raise ValueError (strptime_datetime_z (py_replace ".000Z" "+0000" s))
  | _ => Raise AttributeError
  end.

(** The test [data.get(k) and i < len(data[k]) and data[k][i]] guarding the
    three conditional keys, with the value [data[k][i]] that the guarded
    statement reads again when the test holds. *)
Definition present_value (data : json) (k : string) (i : nat) : result (option json) :=
  g ← get_method data k JNull;
  if py_bool g then
    col ← getitem_key data k;
    n ← py_len col;
    if (i <? n)%nat then
      x ← column_at data k i;
      if py_bool x then Some <$> column_at data k i else Ok None
    else Ok None
  else Ok None.

(** [[item.strip() for item in v.split(",") if item.strip()]]: [split] is a
    method of [str]. *)
Definition split_items (v : json) : result (list string) :=
  match v with
  | JStr s =>
      Ok (py_strip <$> filter (λ item, py_strip item ≠ EmptyString) (py_split "," s))
  | _ => Raise AttributeError
  end.

(** The body of the [try] statement for index [i]. *)
Definition parse_record {lib : PyLib} (data : json) (num_filings i : nat) : result Filing :=
  accession_number ← column_at data "accessionNumber" i;
  form ← column_at data "form" i;
  filing_date ← column_at data "filingDate" i ≫= py_strptime_date;
  acceptance_time ← column_at data "acceptanceDateTime" i ≫= parse_acceptance;
  size ← column_at data "size" i;
  is_xbrl ← get_method data "isXBRL" (list_repeat (JInt 0) num_filings)
             ≫= (λ col, getitem_idx col i);
  is_inline_xbrl ← get_method data "isInlineXBRL" (list_repeat (JInt 0) num_filings)
             ≫= (λ col, getitem_idx col i);
  primary_document ← get_method data "primaryDocument" (list_repeat (JStr "") num_filings)
             ≫= (λ col, getitem_idx col i);
  primary_document_description ←
    get_method data "primaryDocDescription" (list_repeat (JStr "") num_filings)
             ≫= (λ col, getitem_idx col i);
  report_date ← (present_value data "reportDate" i ≫= λ o,
                   match o with
                   | Some v => Some <$> py_strptime_date v
                   | None => Ok None
                   end);
  act ← present_value data "act" i;
  items ← (present_value data "items" i ≫= λ o,
             match o with
             | Some v => Some <$> split_items v
             | None => Ok None
             end);
  model_validate
    (mk_filing_dict accession_number form filing_date acceptance_time size
       (py_bool is_xbrl) (py_bool is_inline_xbrl)
       (py_or primary_document (JStr "")) (py_or primary_document_description (JStr ""))
       report_date act items).

(** The [for i in range(num_filings)] loop: a record whose body raises one
    of the handled exceptions is passed over, any other exception leaves the
    function.  The warning printed for a record passed over goes to standard
    output and does not reach the value returned. *)
Fixpoint parse_loop {lib : PyLib} (data : json) (num_filings : nat) (indices : list nat)
    (filings : list Filing) : result (list Filing) :=
  match indices with
  | [] => Ok filings
  | i :: rest =>
      match parse_record data num_filings i with
      | Ok filing => parse_loop data num_filings rest (filings ++ [filing])
      | Raise e =>
          if handled e then parse_loop data num_filings rest filings
          else Raise e
      end
  end.

Definition _parse_filings {lib : PyLib} (data : json) : result (list Filing) :=
  num_filings ← getitem_key data "accessionNumber" ≫= py_len;
  parse_loop data num_filings (seq 0 num_filings) [].

(** ** The transport *)

(** An [httpx.Response] through the two methods the client calls on it. *)
Record Response : Type := mk_Response {
  raise_for_status : result unit;
  json_body : result json            (* [response.json()] *)
}.

(** The state of an [EDGARClient] that the pipeline uses: its [httpx.Client]
    through [self.client.get]. *)
Record EDGARClient : Type := mk_EDGARClient {
  client_get : string → result Response
}.

Definition DATA_URL : string := "https://data.sec.gov".

(** A computation that sends requests: it extends the list of the URLs
    requested so far and returns or raises. *)
Definition io (A : Type) : Type := list string → list string * result A.

Definition io_bind {A B} (f : A → io B) (m : io A) : io B :=
  λ t, match m t with
       | (t', Ok a) => f a t'
       | (t', Raise e) => (t', Raise e)
       end.

#[global] Instance io_ret : MRet io := λ A a t, (t, Ok a).
#[global] Instance io_mbind : MBind io := λ A B f m, io_bind f m.

(** A step that sends nothing. *)
Definition lift {A} (r : result A) : io A := λ t, (t, r).

(** [EDGARClient._get].  The decorators [sleep_and_retry] and [limits] delay
    the call and leave its outcome as it is. *)
Definition get_outcome (self : EDGARClient) (url : string) : result Response :=
  response ← client_get self url;
  _ ← raise_for_status response;
  Ok response.

Definition _get (self : EDGARClient) (url : string) : io Response :=
  λ t, (t ++ [url], get_outcome self url).

(** ** [EDGARClient.get_filings] *)

(** [f"{v}"]. *)
Definition fstring {lib : PyLib} (v : json) : string :=
  match v with
  | JStr s => s
  | _ => format_value v
  end.

(** The loop over [data["filings"]["files"]]. *)
Fixpoint fetch_files {lib : PyLib} (self : EDGARClient) (files : list json)
    (all_filings : list Filing) : io (list Filing) :=
  match files with
  | [] => mret all_filings
  | file :: rest =>
      name ← lift (getitem_key file "name");
      let file_url := urljoin DATA_URL ("submissions/" +:+ fstring name) in
      file_response ← _get self file_url;
      file_data ← lift (json_body file_response);
      additional_filings ← lift (_parse_filings file_data);
      fetch_files self rest (all_filings ++ additional_filings)
  end.

(** [x and e] where [x] is an [Optional[datetime]]: every [datetime] is
    true. *)
Definition and_date (x : option datetime) (e : datetime → result bool) : result bool :=
  match x with
  | Some d => e d
  | None => Ok false
  end.

(** [forms and filing.form not in forms]. *)
Definition form_rejected (forms : option (list string)) (f : string) : bool :=
  match forms with
  | Some (x :: l) => negb (existsb (String.eqb f) (x :: l))
  | _ => false
  end.

(** [limit and len(filtered_filings) >= limit]. *)
Definition limit_reached (limit : option Z) (filtered_filings : list Filing) : bool :=
  match limit with
  | Some n => negb (n =? 0)%Z && (n <=? Z.of_nat (length filtered_filings))%Z
  | None => false
  end.

(** The loop over [all_filings]. *)
Fixpoint filter_loop (start_date end_date : option datetime)
    (forms : option (list string)) (limit : option Z)
    (all_filings filtered_filings : list Filing) : result (list Filing) :=
  match all_filings with
  | [] => Ok filtered_filings
  | filing :: rest =>
      and_date start_date (λ d, dt_lt (filing_date filing) d) ≫= λ early : bool,
      if early then filter_loop start_date end_date forms limit rest filtered_filings
      else
        and_date end_date (λ d, dt_gt (filing_date filing) d) ≫= λ late : bool,
        if late then filter_loop start_date end_date forms limit rest filtered_filings
        else if form_rejected forms (form filing)
        then filter_loop start_date end_date forms limit rest filtered_filings
        else
          let filtered_filings' := filtered_filings ++ [filing] in
          if limit_reached limit filtered_filings' then Ok filtered_filings'
          else filter_loop start_date end_date forms limit rest filtered_filings'
  end.

Definition get_filings {lib : PyLib} (self : EDGARClient) (cik : string)
    (start_date end_date : option datetime) (forms : option (list string))
    (limit : option Z) : io (list Filing) :=
  n ← lift (or_raise ValueError (py_int cik));
  let normalized_cik := format_010d n in
  let url := urljoin DATA_URL ("submissions/CIK" +:+ normalized_cik +:+ ".json") in
  response ← _get self url;
  data ← lift (json_body response);
  main_filings ← lift (filings ← getitem_key data "filings";
                       recent ← getitem_key filings "recent";
                       _parse_filings recent);
  files ← lift (filings ← getitem_key data "filings";
                files ← getitem_key filings "files";
                py_iter files);
  all_filings ← fetch_files self files main_filings;
  lift (filter_loop start_date end_date forms limit all_filings []).

(** The value returned and the requests sent by a call made with no request
    sent before. *)
Definition returned {A} (m : io A) : result A := (m []).2.
Definition requests {A} (m : io A) : list string := (m []).1.

(** ** [EDGARClient.search_filers] *)

Module FilerMatch.
Record t : Type := mk {
  name : string;
  cik : string
}.
End FilerMatch.

Definition BASE_URL : string := "https://www.sec.gov".

(** The line boundaries of [str.splitlines] among the code points below
    256: LF, VT, FF, CR, FS, GS, RS and NEL. *)
Definition is_linebreak (c : ascii) : bool :=
  let n := code c in
  ((10 <=? n) && (n <=? 13) || (28 <=? n) && (n <=? 30) || (n =? 133))%N.

(** [s.splitlines()]: the lines without their boundaries; a CR followed by
    LF is one boundary, and a boundary at the end opens no further line.
    [after_cr] tells that the previous character was a CR. *)
Fixpoint lines_from (after_cr : bool) (s : string) : list string :=
  match s with
  | EmptyString => []
  | String c s' =>
      if after_cr && (code c =? 10)%N then lines_from false s'
      else if is_linebreak c then EmptyString :: lines_from (code c =? 13)%N s'
      else match lines_from false s' with
           | line :: rest => String c line :: rest
           | [] => [String c EmptyString]
           end
  end.

Definition splitlines (s : string) : list string :=
  match s with
  | EmptyString => []
  | String c s' =>
      if is_linebreak c then EmptyString :: lines_from (code c =? 13)%N s'
      else lines_from false s
  end.

(** [c.lower()] for one code point below 256: the letters A-Z and the
    capital letters of Latin-1 move up by 32. *)
Definition lower_char (c : ascii) : ascii :=
  let n := code c in
  if ((65 <=? n) && (n <=? 90) || (192 <=? n) && (n <=? 214)
      || (216 <=? n) && (n <=? 222))%N
  then ascii_of_N (n + 32) else c.

(** [s.lower()]. *)
Fixpoint py_lower (s : string) : string :=
  match s with
  | EmptyString => EmptyString
  | String c s' => String (lower_char c) (py_lower s')
  end.

(** [sub in s] for two [str]. *)
Fixpoint py_in_str (sub s : string) : bool :=
  startswith sub s
  || match s with
     | String _ s' => py_in_str sub s'
     | EmptyString => false
     end.

(** [contains and contains.lower() not in name.lower()]. *)
Definition name_rejected (contains : option string) (name : string) : bool :=
  match contains with
  | Some (String c s) => negb (py_in_str (py_lower (String c s)) (py_lower name))
  | _ => false
  end.

(** [limit and len(matches) >= limit]. *)
Definition limit_hit {A} (limit : option Z) (matches : list A) : bool :=
  match limit with
  | Some n => negb (n =? 0)%Z && (n <=? Z.of_nat (length matches))%Z
  | None => false
  end.

(** The loop over the lines of the lookup file.  A line of at least three
    fields has its second field converted with [int] before any filter is
    tried; the [ValueError] of that conversion is not handled. *)
Fixpoint filer_loop (contains : option string) (ciks : option (list string))
    (limit : option Z) (lines : list string) (matches : list FilerMatch.t) :
    result (list FilerMatch.t) :=
  match lines with
  | [] => Ok matches
  | line :: rest =>
      match py_strip line with
      | EmptyString => filer_loop contains ciks limit rest matches
      | _ =>
          match py_split ":" line with
          | field0 :: field1 :: _ :: _ =>
              let name := py_strip field0 in
              match py_int field1 with
              | None => Raise ValueError
              | Some n =>
                  let cik := format_010d n in
                  if form_rejected ciks cik
                  then filer_loop contains ciks limit rest matches
                  else if name_rejected contains name
                  then filer_loop contains ciks limit rest matches
                  else
                    let matches' := matches ++ [FilerMatch.mk name cik] in
                    if limit_hit limit matches' then Ok matches'
                    else filer_loop contains ciks limit rest matches'
              end
          | _ => filer_loop contains ciks limit rest matches
          end
      end
  end.

(** [text] stands for the attribute [text] of a response. *)
Definition search_filers {lib : PyLib} (text : Response → string)
    (self : EDGARClient) (contains : option string) (ciks : option (list string))
    (limit : option Z) : io (list FilerMatch.t) :=
  let url := urljoin BASE_URL "/Archives/edgar/cik-lookup-data.txt" in
  response ← _get self url;
  lift (filer_loop contains ciks limit (splitlines (text response)) []).

(** ** [EDGARClient.get_filer] *)

Module Filer.
Record t : Type := mk {
  cik : string;
  entity_type : string;
  sic : option string;
  sic_description : option string;
  name : string;
  tickers : list string;
  exchanges : list string;
  ein : option string;
  description : option string;
  website : option string;
  category : option string;
  fiscal_year_end : option string;
  state_of_incorporation : option string;
  phone_number : option string;
  flags : option string
}.
End Filer.

(** A field annotated [List[str]]. *)
Definition validate_str_list (v : json) : option (list string) :=
  match v with
  | JArr l => mapM validate_str l
  | _ => None
  end.

(** The keyword arguments of [Filer(...)], evaluated in the order of the
    call. *)
Record filer_args : Type := mk_filer_args {
  arg_cik : json;
  arg_entity_type : json;
  arg_sic : json;
  arg_sic_description : json;
  arg_name : json;
  arg_tickers : json;
  arg_exchanges : json;
  arg_ein : json;
  arg_description : json;
  arg_website : json;
  arg_category : json;
  arg_fiscal_year_end : json;
  arg_state_of_incorporation : json;
  arg_phone_number : json;
  arg_flags : json
}.

Definition read_filer_args (data : json) : result filer_args :=
  cik ← getitem_key data "cik";
  entity_type ← getitem_key data "entityType";
  sic ← get_method data "sic" JNull;
  sic_description ← get_method data "sicDescription" JNull;
  name ← getitem_key data "name";
  tickers ← getitem_key data "tickers";
  exchanges ← getitem_key data "exchanges";
  ein ← get_method data "ein" JNull;
  description ← get_method data "description" JNull;
  website ← get_method data "website" JNull;
  category ← get_method data "category" JNull;
  fiscal_year_end ← get_method data "fiscalYearEnd" JNull;
  state_of_incorporation ← get_method data "stateOfIncorporation" JNull;
  phone_number ← get_method data "phone" JNull;
  flags ← get_method data "flags" JNull;
  Ok (mk_filer_args cik entity_type sic sic_description name tickers exchanges
        ein description website category fiscal_year_end
        state_of_incorporation phone_number flags).

(** The validation that the constructor [Filer(...)] runs. *)
Definition Filer_init (a : filer_args) : result Filer.t :=
  or_raise ValidationError
    (cik ← validate_str (arg_cik a);
     entity_type ← validate_str (arg_entity_type a);
     sic ← validate_opt_str (Some (arg_sic a));
     sic_description ← validate_opt_str (Some (arg_sic_description a));
     name ← validate_str (arg_name a);
     tickers ← validate_str_list (arg_tickers a);
     exchanges ← validate_str_list (arg_exchanges a);
     ein ← validate_opt_str (Some (arg_ein a));
     description ← validate_opt_str (Some (arg_description a));
     website ← validate_opt_str (Some (arg_website a));
     category ← validate_opt_str (Some (arg_category a));
     fiscal_year_end ← validate_opt_str (Some (arg_fiscal_year_end a));
     state_of_incorporation ←
       validate_opt_str (Some (arg_state_of_incorporation a));
     phone_number ← validate_opt_str (Some (arg_phone_number a));
     flags ← validate_opt_str (Some (arg_flags a));
     Some (Filer.mk cik entity_type sic sic_description name tickers exchanges
             ein description website category fiscal_year_end
             state_of_incorporation phone_number flags)).

Definition get_filer {lib : PyLib} (self : EDGARClient) (cik : string) :
    io Filer.t :=
  n ← lift (or_raise ValueError (py_int cik));
  let normalized_cik := format_010d n in
  let url := urljoin DATA_URL ("submissions/CIK" +:+ normalized_cik +:+ ".json") in
  response ← _get self url;
  data ← lift (json_body response);
  lift (read_filer_args data ≫= Filer_init).

(** ** Notions of the specification *)

(** A conditionally-present column has a usable value at index [i]: the
    column exists, [i] is within it, and the value there is true. *)
Definition field_present (data : json) (k : string) (i : nat) (x : json) : Prop :=
  ∃ col, getitem_key data k = Ok col ∧ getitem_idx col i = Ok x ∧ py_bool x = true.

(** The pieces of a comma-separated value: trimmed, blank pieces dropped. *)
Definition item_pieces (s : string) : list string :=
  py_strip <$> filter (λ item, py_strip item ≠ EmptyString) (py_split "," s).

(** Document building, for the examples. *)
Definition obj (l : list (string * json)) : json := JObj (list_to_map l).
Definition strs (l : list string) : json := JArr (JStr <$> l).
Definition ints (l : list Z) : json := JArr (JInt <$> l).

(** A block of two well-formed records. *)
Definition block_two : json := obj [
  ("accessionNumber", strs ["0000320193-24-000081"; "0000320193-24-000069"]);
  ("form", strs ["10-K"; "8-K"]);
  ("filingDate", strs ["2024-11-01"; "2024-08-01"]);
  ("acceptanceDateTime", strs ["2024-11-01T06:01:36.000Z"; "2024-08-01T16:30:00.000Z"]);
  ("size", ints [9185722; 431287]%Z);
  ("reportDate", strs ["2024-09-28"; ""]);
  ("act", strs ["34"; "34"]);
  ("items", strs [""; "2.02, 9.01,  "]);
  ("isXBRL", ints [1; 0]%Z);
  ("isInlineXBRL", ints [1; 0]%Z);
  ("primaryDocument", strs ["aapl-20240928.htm"; ""]);
  ("primaryDocDescription", strs ["10-K"; "8-K"])
  ].

(** One record whose size is negative. *)
Definition block_negative_size : json := obj [
  ("accessionNumber", strs ["0000320193-24-000081"]);
  ("form", strs ["10-K"]);
  ("filingDate", strs ["2024-11-01"]);
  ("acceptanceDateTime", strs ["2024-11-01T06:01:36.000Z"]);
  ("size", ints [-5]%Z)
  ].

(** One record whose items value holds separators only. *)
Definition block_blank_items : json := obj [
  ("accessionNumber", strs ["0000320193-24-000069"]);
  ("form", strs ["8-K"]);
  ("filingDate", strs ["2024-08-01"]);
  ("acceptanceDateTime", strs ["2024-08-01T16:30:00.000Z"]);
  ("size", ints [431287]%Z);
  ("items", strs [" , "])
  ].

(** Two records, the second with a [null] filing date. *)
Definition block_null_date : json := obj [
  ("accessionNumber", strs ["0000320193-24-000081"; "0000320193-24-000069"]);
  ("form", strs ["10-K"; "8-K"]);
  ("filingDate", JArr [JStr "2024-11-01"; JNull]);
  ("acceptanceDateTime", strs ["2024-11-01T06:01:36.000Z"; "2024-08-01T16:30:00.000Z"]);
  ("size", ints [9185722; 431287]%Z)
  ].

(** Two records, the second with a malformed filing date. *)
Definition block_bad_date : json := obj [
  ("accessionNumber", strs ["0000320193-24-000081"; "0000320193-24-000069"]);
  ("form", strs ["10-K"; "8-K"]);
  ("filingDate", strs ["2024-11-01"; "01/08/2024"]);
  ("acceptanceDateTime", strs ["2024-11-01T06:01:36.000Z"; "2024-08-01T16:30:00.000Z"]);
  ("size", ints [9185722; 431287]%Z)
  ].

(** No size column, and a [null] filing date. *)
Definition block_no_size_null_date : json := obj [
  ("accessionNumber", strs ["0000320193-24-000081"]);
  ("form", strs ["10-K"]);
  ("filingDate", JArr [JNull]);
  ("acceptanceDateTime", strs ["2024-11-01T06:01:36.000Z"])
  ].

(** The record that index [i] contributes, if any. *)
Definition surviving {lib : PyLib} (data : json) (n i : nat) : option Filing :=
  match parse_record data n i with
  | Ok f => Some f
  | Raise _ => None
  end.

(** The records of [block_two], [block_negative_size] and
    [block_blank_items]. *)
Definition filing_10k : Filing := {|
  accession_number := "0000320193-24-000081";
  form := "10-K";
  filing_date := mk_datetime 2024 11 1 0 0 0 0 None;
  report_date := Some (mk_datetime 2024 9 28 0 0 0 0 None);
  acceptance_time := mk_datetime 2024 11 1 6 1 36 0 (Some 0%Z);
  act := Some "34";
  size := 9185722;
  items := None;
  is_xbrl := true;
  is_inline_xbrl := true;
  primary_document := "aapl-20240928.htm";
  primary_document_description := "10-K"
|}.

Definition filing_8k : Filing := {|
  accession_number := "0000320193-24-000069";
  form := "8-K";
  filing_date := mk_datetime 2024 8 1 0 0 0 0 None;
  report_date := None;
  acceptance_time := mk_datetime 2024 8 1 16 30 0 0 (Some 0%Z);
  act := Some "34";
  size := 431287;
  items := Some ["2.02"; "9.01"];
  is_xbrl := false;
  is_inline_xbrl := false;
  primary_document := "";
  primary_document_description := "8-K"
|}.

Definition filing_negative_size : Filing := {|
  accession_number := "0000320193-24-000081";
  form := "10-K";
  filing_date := mk_datetime 2024 11 1 0 0 0 0 None;
  report_date := None;
  acceptance_time := mk_datetime 2024 11 1 6 1 36 0 (Some 0%Z);
  act := None;
  size := -5;
  items := None;
  is_xbrl := false;
  is_inline_xbrl := false;
  primary_document := "";
  primary_document_description := ""
|}.

Definition filing_blank_items : Filing := {|
  accession_number := "0000320193-24-000069";
  form := "8-K";
  filing_date := mk_datetime 2024 8 1 0 0 0 0 None;
  report_date := None;
  acceptance_time := mk_datetime 2024 8 1 16 30 0 0 (Some 0%Z);
  act := None;
  size := 431287;
  items := Some [];
  is_xbrl := false;
  is_inline_xbrl := false;
  primary_document := "";
  primary_document_description := ""
|}.

(** The first record of [block_null_date] and of [block_bad_date]. *)
Definition filing_plain : Filing := {|
  accession_number := "0000320193-24-000081";
  form := "10-K";
  filing_date := mk_datetime 2024 11 1 0 0 0 0 None;
  report_date := None;
  acceptance_time := mk_datetime 2024 11 1 6 1 36 0 (Some 0%Z);
  act := None;
  size := 9185722;
  items := None;
  is_xbrl := false;
  is_inline_xbrl := false;
  primary_document := "";
  primary_document_description := ""
|}.

(** The column [k] of a dict is an array of strings when it is there. *)
Definition strings_if_present (m : gmap string json) (k : string) : Prop :=
  m !! k = None ∨ ∃ l : list string, m !! k = Some (strs l).

(** A call that raised an exception the handler of the loop takes. *)
Definition skipped {A} (r : result A) : Prop :=
  ∃ e, r = Raise e ∧ handled e = true.

(** *** The filter stage *)

Definition naive (d : datetime) : Prop := tzinfo d = None.

(** [a >= b] and [a <= b] for naive objects. *)
Definition on_or_after (a b : datetime) : bool :=
  match lex_cmp (fields a) (fields b) with Lt => false | _ => true end.
Definition on_or_before (a b : datetime) : bool :=
  match lex_cmp (fields a) (fields b) with Gt => false | _ => true end.

(** The inclusion test of the filter stage: each bound and the form filter
    count when given. *)
Definition included (start_date end_date : option datetime)
    (forms : option (list string)) (f : Filing) : bool :=
  from_option (on_or_after (filing_date f)) true start_date
  && from_option (on_or_before (filing_date f)) true end_date
  && from_option (λ l, bool_decide (form f ∈ l)) true forms.

(** A record with the given accession number, form and filing date. *)
Definition sample_filing (an fo : string) (y m d : Z) : Filing := {|
  accession_number := an;
  form := fo;
  filing_date := mk_datetime y m d 0 0 0 0 None;
  report_date := None;
  acceptance_time := mk_datetime y m d 12 0 0 0 (Some 0%Z);
  act := None;
  size := 1000;
  items := None;
  is_xbrl := false;
  is_inline_xbrl := false;
  primary_document := "";
  primary_document_description := ""
|}.

(** Five records, newest first; three of them are 8-K filings. *)
Definition five_filings : list Filing := [
  sample_filing "0000320193-24-000005" "8-K" 2024 5 2;
  sample_filing "0000320193-24-000004" "10-Q" 2024 5 1;
  sample_filing "0000320193-24-000003" "8-K" 2024 2 1;
  sample_filing "0000320193-24-000002" "10-K" 2023 11 3;
  sample_filing "0000320193-24-000001" "8-K" 2023 8 3
].

(** Noon UTC on 2024-01-01, as an aware object. *)
Definition aware_new_year : datetime := mk_datetime 2024 1 1 12 0 0 0 (Some 0%Z).

(** *** The aggregator *)

(** The location of the primary document of the registrant numbered [n] and
    of the overflow document called [name]. *)
Definition primary_url {lib : PyLib} (n : Z) : string :=
  urljoin DATA_URL ("submissions/CIK" +:+ format_010d n +:+ ".json").
Definition file_url {lib : PyLib} (name : json) : string :=
  urljoin DATA_URL ("submissions/" +:+ fstring name).

(** The document obtained from [url]: the request succeeds and the body
    decodes. *)
Definition fetch_json (self : EDGARClient) (url : string) : result json :=
  get_outcome self url ≫= json_body.

(** The normalized records of the overflow document that [file] names. *)
Definition overflow_records {lib : PyLib} (self : EDGARClient) (file : json) :
    result (list Filing) :=
  name ← getitem_key file "name";
  file_data ← fetch_json self (file_url name);
  _parse_filings file_data.

(** [url] is the request made for the entry [file] of the file list. *)
Definition requested_for {lib : PyLib} (file : json) (url : string) : Prop :=
  ∃ name, getitem_key file "name" = Ok name ∧ url = file_url name.

(** After the requests [t] the call stands at [r]: every request was
    answered with a document, or every request but the last was and the call
    raises what the last request or the decoding of its answer raised. *)
Definition faults_surface {A} (self : EDGARClient) (t : list string) (r : result A) : Prop :=
  Forall (λ u, ∃ doc, fetch_json self u = Ok doc) t
  ∨ ∃ t' u e, t = t' ++ [u]
      ∧ Forall (λ u, ∃ doc, fetch_json self u = Ok doc) t'
      ∧ fetch_json self u = Raise e
      ∧ r = Raise e.

(** A server holding a primary document with the block [block_two] and one
    overflow document with the block [block_negative_size]; every other
    request is answered 404. *)
Definition overflow_entry : json :=
  obj [("name", JStr "CIK0000320193-submissions-001.json")].

Definition filings_section_two : json :=
  obj [("recent", block_two); ("files", JArr [overflow_entry])].

Definition primary_document_two : json :=
  obj [("cik", JStr "320193"); ("filings", filings_section_two)].

Definition not_found : result Response :=
  Ok (mk_Response (Raise (HTTPError 404)) (Raise JSONDecodeError)).

Definition server_two : EDGARClient := mk_EDGARClient (λ url,
  if String.eqb url "https://data.sec.gov/submissions/CIK0000320193.json"
  then Ok (mk_Response (Ok ()) (Ok primary_document_two))
  else if String.eqb url
            "https://data.sec.gov/submissions/CIK0000320193-submissions-001.json"
  then Ok (mk_Response (Ok ()) (Ok block_negative_size))
  else not_found).

(** The same server without the overflow document. *)
Definition server_overflow_lost : EDGARClient := mk_EDGARClient (λ url,
  if String.eqb url "https://data.sec.gov/submissions/CIK0000320193.json"
  then Ok (mk_Response (Ok ()) (Ok primary_document_two))
  else not_found).

(** *** Decimal strings *)

(** The [k] low decimal digits of [n], most significant first. *)
Fixpoint digits_of (k : nat) (n : Z) : string :=
  match k with
  | O => EmptyString
  | S k' => String (digit_char ((n / 10 ^ Z.of_nat k') mod 10)) (digits_of k' n)
  end.

Fixpoint all_digits (s : string) : bool :=
  match s with
  | EmptyString => true
  | String c s' => is_digit c && all_digits s'
  end.

(** *** Acceptance times *)

(** The text the service sends for an acceptance time,
    [YYYY-MM-DDTHH:MM:SS.000Z], and the same time written with a numeric
    offset. *)
Definition wall_clock_text (y m d h mi s : Z) : string :=
  format_0wd 4 y +:+ "-" +:+ format_0wd 2 m +:+ "-" +:+ format_0wd 2 d +:+ "T"
  +:+ format_0wd 2 h +:+ ":" +:+ format_0wd 2 mi +:+ ":" +:+ format_0wd 2 s.
Definition upstream_timestamp (y m d h mi s : Z) : string :=
  wall_clock_text y m d h mi s +:+ ".000Z".
Definition offset_timestamp (y m d h mi s : Z) : string :=
  wall_clock_text y m d h mi s +:+ "+0000".

(** No full stop occurs in the text. *)
Fixpoint no_dot (s : string) : bool :=
  match s with
  | EmptyString => true
  | String c s' => negb (Ascii.eqb "." c) && no_dot s'
  end.

(** An aware object; its instant, in microseconds of UTC counted as in
    [wall_micros]. *)
Definition aware (d : datetime) : Prop := is_Some (tzinfo d).
Definition instant (d : datetime) : option Z :=
  off ← tzinfo d; Some (wall_micros d - off)%Z.

(** A directive matches the two digits of a number of its range and closes
    its group, whatever follows, provided the rest of the match succeeds. *)
Definition directive_matches (r : regex) (name : string) (z : Z) : Prop :=
  ∀ A (rest : string) (caps : list (string * string))
    (k : string → string → list (string * string) → option A) (a : A),
    k (digits_of 2 z) rest ((name, digits_of 2 z) :: caps) = Some a →
    rmatch r (digits_of 2 z +:+ rest) caps k = Some a.

(** * Properties *)

(** ** The library fragments at work *)

Example strip_ex : py_strip "  9.01 " = "9.01".
Proof. reflexivity. Qed.

Example split_ex : py_split "," "2.01, 9.01,  " = ["2.01"; " 9.01"; "  "].
Proof. reflexivity. Qed.

Example replace_ex :
  py_replace ".000Z" "+0000" "2024-03-15T16:30:00.000Z" = "2024-03-15T16:30:00+0000".
Proof. reflexivity. Qed.

Example int_ex :
  py_int " 3_20193 " = Some 320193%Z
  ∧ py_int "-5" = Some (-5)%Z
  ∧ py_int "AAPL" = None
  ∧ py_int "1__2" = None
  ∧ py_int "12 3" = None
  ∧ py_int "" = None.
Proof. repeat split; reflexivity. Qed.

Example format_ex :
  format_010d 320193 = "0000320193"
  ∧ format_010d 0 = "0000000000"
  ∧ format_010d (-5) = "-000000005"
  ∧ format_010d 12345678901 = "12345678901".
Proof. repeat split; vm_compute; reflexivity. Qed.

Example strptime_date_ex :
  strptime_date "2024-03-15" = Some (mk_datetime 2024 3 15 0 0 0 0 None)
  ∧ strptime_date "2024-3-5" = Some (mk_datetime 2024 3 5 0 0 0 0 None)
  ∧ strptime_date "2024-02-29" = Some (mk_datetime 2024 2 29 0 0 0 0 None)
  ∧ strptime_date "2023-02-29" = None
  ∧ strptime_date "2024-03-151" = None
  ∧ strptime_date "0000-01-01" = None
  ∧ strptime_date "" = None.
Proof. repeat split; vm_compute; reflexivity. Qed.

Example strptime_datetime_z_ex :
  strptime_datetime_z "2024-03-15T16:30:00+0000"
  = Some (mk_datetime 2024 3 15 16 30 0 0 (Some 0%Z))
  ∧ strptime_datetime_z "2024-03-15t16:30:00Z"
    = Some (mk_datetime 2024 3 15 16 30 0 0 (Some 0%Z))
  ∧ strptime_datetime_z "2024-03-15T16:30:00-05:30"
    = Some (mk_datetime 2024 3 15 16 30 0 0 (Some (-19800000000)%Z))
  ∧ strptime_datetime_z "2024-03-15T16:30:00+01:00:30.5"
    = Some (mk_datetime 2024 3 15 16 30 0 0 (Some 3630500000%Z))
  ∧ strptime_datetime_z "2024-03-15T16:30:00.000Z" = None
  ∧ strptime_datetime_z "2024-03-15T16:30:60Z" = None
  ∧ strptime_datetime_z "2024-03-15T16:30:00+0100:30" = None.
Proof. repeat split; vm_compute; reflexivity. Qed.

(** A block of two records, and the same pipeline run against a server. *)
Example parse_block_two :
  _parse_filings (lib := sample_lib) block_two = Ok [filing_10k; filing_8k].
Proof. vm_compute. reflexivity. Qed.

Example get_filings_server_two :
  get_filings (lib := sample_lib) server_two "320193" None None None None []
  = (["https://data.sec.gov/submissions/CIK0000320193.json";
      "https://data.sec.gov/submissions/CIK0000320193-submissions-001.json"],
     Ok [filing_10k; filing_8k; filing_negative_size]).
Proof. vm_compute. reflexivity. Qed.

(** ** Results *)

Lemma bind_Ok {A B} (r : result A) (f : A → result B) (b : B) :
  r ≫= f = Ok b → ∃ a, r = Ok a ∧ f a = Ok b.
Proof. destruct r as [a|e]; simpl; [eauto | discriminate]. Qed.

Lemma fmap_Ok {A B} (g : A → B) (r : result A) (b : B) :
  g <$> r = Ok b → ∃ a, r = Ok a ∧ b = g a.
Proof. destruct r as [a|e]; simpl; [intros [= <-]; eauto | discriminate]. Qed.

Lemma or_raise_Ok {A} (e : exn) (o : option A) (a : A) :
  or_raise e o = Ok a → o = Some a.
Proof. destruct o; simpl; congruence. Qed.

(** One step of a chain of calls. *)
Ltac step := cbn [mbind result_mbind result_bind or_raise].

(** ** Validation *)

Lemma validate_str_Some (v : json) (s : string) :
  validate_str v = Some s → v = JStr s.
Proof. destruct v; simpl; congruence. Qed.

Lemma model_validate_Ok {lib : PyLib} (d : filing_dict) (f : Filing) :
  model_validate d = Ok f →
  raw_accession_number d = JStr (accession_number f)
  ∧ raw_form d = JStr (form f)
  ∧ raw_filing_date d = filing_date f
  ∧ raw_acceptance_time d = acceptance_time f
  ∧ validate_int (raw_size d) = Some (size f)
  ∧ validate_opt_str (raw_act d) = Some (act f)
  ∧ raw_report_date d = report_date f
  ∧ raw_items d = items f
  ∧ raw_is_xbrl d = is_xbrl f
  ∧ raw_is_inline_xbrl d = is_inline_xbrl f
  ∧ raw_primary_document d = JStr (primary_document f)
  ∧ raw_primary_document_description d = JStr (primary_document_description f).
Proof.
  unfold model_validate. intros Hv. apply or_raise_Ok in Hv.
  destruct (validate_str (raw_accession_number d)) as [an|] eqn:Han; [|discriminate].
  destruct (validate_str (raw_form d)) as [fo|] eqn:Hfo; [|discriminate].
  destruct (validate_opt_str (raw_act d)) as [ac|] eqn:Hac; [|discriminate].
  destruct (validate_int (raw_size d)) as [sz|] eqn:Hsz; [|discriminate].
  destruct (validate_str (raw_primary_document d)) as [pd|] eqn:Hpd; [|discriminate].
  destruct (validate_str (raw_primary_document_description d)) as [pdd|] eqn:Hpdd;
    [|discriminate].
  simpl in Hv. injection Hv as <-. simpl.
  apply validate_str_Some in Han, Hfo, Hpd, Hpdd. by repeat split.
Qed.

(** ** Subscripts and lengths *)

Lemma string_get_ge (s : string) (i : nat) :
  (String.length s ≤ i)%nat → String.get i s = None.
Proof.
  revert i. induction s as [|c s IH]; intros i Hi; [done|].
  destruct i as [|i]; simpl in *; [lia|]. apply IH. lia.
Qed.

(** A subscript at or past the length of a sized value never succeeds. *)
Lemma getitem_idx_ge (col : json) (n i : nat) (x : json) :
  py_len col = Ok n → (n ≤ i)%nat → getitem_idx col i ≠ Ok x.
Proof.
  destruct col; simpl; try discriminate; intros [= <-] Hi.
  - by rewrite string_get_ge.
  - by rewrite lookup_ge_None_2.
Qed.

(** A false value has no element at any index. *)
Lemma getitem_idx_false (col : json) (i : nat) (x : json) :
  py_bool col = false → getitem_idx col i ≠ Ok x.
Proof.
  destruct col as [| | | |s|l|m]; simpl; try discriminate.
  - destruct s; [by destruct i | discriminate].
  - destruct l; [done | discriminate].
Qed.

(** ** The guard of the conditional keys *)

Lemma present_value_Some (data : json) (k : string) (i : nat) (x : json) :
  present_value data k i = Ok (Some x) → field_present data k i x.
Proof.
  unfold present_value, field_present, column_at. intros H.
  apply bind_Ok in H as (g & _ & H).
  destruct (py_bool g); [|discriminate].
  apply bind_Ok in H as (col & Hcol & H). rewrite Hcol in H. simpl in H.
  apply bind_Ok in H as (n & _ & H).
  destruct (i <? n)%nat; [|discriminate].
  apply bind_Ok in H as (y & Hy & H).
  destruct (py_bool y) eqn:Hb; [|discriminate].
  rewrite Hy in H. simpl in H. injection H as <-. eauto.
Qed.

Lemma present_value_None (data : json) (k : string) (i : nat) (x : json) :
  present_value data k i = Ok None → ¬ field_present data k i x.
Proof.
  unfold present_value, field_present, column_at.
  intros H (col & Hcol & Hx & Hb).
  apply bind_Ok in H as (g & Hg & H).
  destruct data as [| | | | | |m]; try discriminate.
  simpl in Hg, Hcol. injection Hg as <-.
  apply or_raise_Ok in Hcol. unfold dict_get_default, getitem_key in H.
  rewrite !Hcol in H. simpl in H.
  destruct (py_bool col) eqn:Hc; [|by eapply getitem_idx_false].
  simpl in H. apply bind_Ok in H as (n & Hn & H).
  destruct (i <? n)%nat eqn:Hi.
  - rewrite Hx in H. simpl in H. by rewrite Hb in H.
  - apply Nat.ltb_ge in Hi. by eapply getitem_idx_ge.
Qed.

(** The guard succeeds with a value exactly when the column has a usable
    value at the index. *)
Lemma present_value_iff (data : json) (k : string) (i : nat) (o : option json) :
  present_value data k i = Ok o →
  ∀ x, o = Some x ↔ field_present data k i x.
Proof.
  intros H x. split.
  - intros ->. by apply present_value_Some.
  - intros Hp. destruct o as [y|].
    + apply present_value_Some in H.
      destruct H as (c1 & H1 & H2 & _), Hp as (c2 & H3 & H4 & _). congruence.
    + by apply present_value_None with (x := x) in H.
Qed.

(** ** One record *)

(** What a record that passes the [try] body was built from. *)
Lemma parse_record_Ok {lib : PyLib} (data : json) (n i : nat) (f : Filing) :
  parse_record data n i = Ok f →
  ∃ vfd vat vsz ord oact oit,
    column_at data "accessionNumber" i = Ok (JStr (accession_number f))
    ∧ column_at data "form" i = Ok (JStr (form f))
    ∧ column_at data "filingDate" i = Ok vfd
    ∧ py_strptime_date vfd = Ok (filing_date f)
    ∧ column_at data "acceptanceDateTime" i = Ok vat
    ∧ parse_acceptance vat = Ok (acceptance_time f)
    ∧ column_at data "size" i = Ok vsz
    ∧ validate_int vsz = Some (size f)
    ∧ present_value data "reportDate" i = Ok ord
    ∧ match ord with Some v => Some <$> py_strptime_date v | None => Ok None end
      = Ok (report_date f)
    ∧ present_value data "act" i = Ok oact
    ∧ validate_opt_str oact = Some (act f)
    ∧ present_value data "items" i = Ok oit
    ∧ match oit with Some v => Some <$> split_items v | None => Ok None end
      = Ok (items f).
Proof.
  unfold parse_record. intros H.
  apply bind_Ok in H as (an & Han & H).
  apply bind_Ok in H as (fo & Hfo & H).
  apply bind_Ok in H as (fd & Hfd & H). apply bind_Ok in Hfd as (vfd & Hvfd & Hfd).
  apply bind_Ok in H as (at' & Hat & H). apply bind_Ok in Hat as (vat & Hvat & Hat).
  apply bind_Ok in H as (sz & Hsz & H).
  apply bind_Ok in H as (xb & _ & H).
  apply bind_Ok in H as (ixb & _ & H).
  apply bind_Ok in H as (pd & _ & H).
  apply bind_Ok in H as (pdd & _ & H).
  apply bind_Ok in H as (rd & Hrd & H). apply bind_Ok in Hrd as (ord & Hord & Hrd).
  apply bind_Ok in H as (oact & Hoact & H).
  apply bind_Ok in H as (it & Hit & H). apply bind_Ok in Hit as (oit & Hoit & Hit).
  apply model_validate_Ok in H. simpl in H.
  destruct H as (-> & -> & -> & -> & Hs & Ha & -> & -> & _).
  exists vfd, vat, sz, ord, oact, oit. by repeat split.
Qed.

(** ** The loop over the records *)

(** Every record returned by the loop was there before or passed the [try]
    body at one of the indices. *)
Lemma parse_loop_elem {lib : PyLib} (data : json) (n : nat) (indices : list nat)
    (filings out : list Filing) (f : Filing) :
  parse_loop data n indices filings = Ok out → f ∈ out →
  f ∈ filings ∨ ∃ i, i ∈ indices ∧ parse_record data n i = Ok f.
Proof.
  revert filings. induction indices as [|i rest IH]; intros filings H Hf; simpl in H.
  - injection H as <-. by left.
  - destruct (parse_record data n i) as [g|e] eqn:Hi.
    + destruct (IH _ H Hf) as [Hin|(j & Hj & Hok)].
      * apply elem_of_app in Hin as [Hin|Hin]; [by left|].
        apply list_elem_of_singleton in Hin as ->.
        right. exists i. split; [left | done].
      * right. exists j. split; [by right | done].
    + destruct (handled e); [|discriminate].
      destruct (IH _ H Hf) as [Hin|(j & Hj & Hok)]; [by left|].
      right. exists j. split; [by right | done].
Qed.

(** When no record raises past the handler the loop returns the surviving
    records in the order of the indices. *)
Lemma parse_loop_handled {lib : PyLib} (data : json) (n : nat) (indices : list nat)
    (filings : list Filing) :
  (∀ i e, i ∈ indices → parse_record data n i = Raise e → handled e = true) →
  parse_loop data n indices filings = Ok (filings ++ omap (surviving data n) indices).
Proof.
  revert filings. induction indices as [|i rest IH]; intros filings Hh; simpl.
  - by rewrite app_nil_r.
  - unfold surviving at 1.
    destruct (parse_record data n i) as [g|e] eqn:Hi.
    + rewrite IH; [by rewrite <- app_assoc|].
      intros j e' Hj. apply Hh. by right.
    + rewrite (Hh i e); [|left|done].
      apply IH. intros j e' Hj. apply Hh. by right.
Qed.

(** The first record that raises past the handler ends the call. *)
Lemma parse_loop_unhandled {lib : PyLib} (data : json) (n : nat) (before after : list nat)
    (i : nat) (e : exn) (filings : list Filing) :
  (∀ j e', j ∈ before → parse_record data n j = Raise e' → handled e' = true) →
  parse_record data n i = Raise e → handled e = false →
  parse_loop data n (before ++ i :: after) filings = Raise e.
Proof.
  revert filings. induction before as [|j before IH]; intros filings Hb Hi He; simpl.
  - by rewrite Hi, He.
  - destruct (parse_record data n j) as [g|e'] eqn:Hj.
    + apply IH; [|done..]. intros k e'' Hk. apply Hb. by right.
    + rewrite (Hb j e'); [|left|done].
      apply IH; [|done..]. intros k e'' Hk. apply Hb. by right.
Qed.

(** ** Trimming *)

Lemma lstrip_head (s : string) :
  lstrip s = EmptyString ∨ ∃ c r, lstrip s = String c r ∧ is_space c = false.
Proof.
  induction s as [|c s IH]; simpl; [by left|].
  destruct (is_space c) eqn:Hc; [done|]. right. eauto.
Qed.

Lemma rstrip_idemp (s : string) : rstrip (rstrip s) = rstrip s.
Proof.
  induction s as [|c s IH]; simpl; [done|].
  destruct (rstrip s) as [|d r] eqn:Hr.
  - destruct (is_space c) eqn:Hc; simpl; [done | by rewrite Hc].
  - change (rstrip (String c (String d r))) with
      (match rstrip (String d r) with
       | EmptyString => if is_space c then EmptyString else String c EmptyString
       | String a b => String c (String a b)
       end).
    by rewrite IH.
Qed.

Lemma rstrip_head (c : ascii) (s : string) :
  is_space c = false → ∃ r, rstrip (String c s) = String c r.
Proof.
  intros Hc. simpl. destruct (rstrip s); [rewrite Hc|]; eauto.
Qed.

(** [strip] is idempotent. *)
Lemma py_strip_idemp (s : string) : py_strip (py_strip s) = py_strip s.
Proof.
  unfold py_strip. destruct (lstrip_head s) as [->|(c & r & -> & Hc)]; [done|].
  destruct (rstrip_head c r Hc) as [r' Hr]. rewrite Hr.
  assert (lstrip (String c r') = String c r') as -> by (simpl; by rewrite Hc).
  rewrite <- Hr. apply rstrip_idemp.
Qed.

(** The pieces kept are trimmed and not empty. *)
Lemma item_pieces_trimmed (s piece : string) :
  piece ∈ item_pieces s → piece ≠ EmptyString ∧ py_strip piece = piece.
Proof.
  unfold item_pieces. intros H.
  apply list_elem_of_fmap in H as (item & -> & H).
  apply list_elem_of_filter in H as [Hne _].
  split; [done | apply py_strip_idemp].
Qed.

Lemma column_at_Ok (data : json) (k : string) (i : nat) (x : json) :
  column_at data k i = Ok x ↔
  ∃ col, getitem_key data k = Ok col ∧ getitem_idx col i = Ok x.
Proof.
  unfold column_at. split.
  - intros H. by apply bind_Ok in H.
  - intros (col & -> & H). done.
Qed.

Lemma field_present_column (data : json) (k : string) (i : nat) (x : json) :
  field_present data k i x ↔ column_at data k i = Ok x ∧ py_bool x = true.
Proof.
  unfold field_present. rewrite column_at_Ok. split.
  - intros (col & Hc & Hx & Hb). eauto.
  - intros [(col & Hc & Hx) Hb]. eauto.
Qed.

(** ** Required fields of a surviving record *)

(** C9, as amended.  Every [Filing] that survives normalization holds the
    five required values of one index of the block: its accession number and
    form are the strings found there, its filing date and acceptance time
    are the dates parsed from the strings found there, and its size is the
    integer validated from the entry found there.  No lower bound is put on
    the size. *)
Theorem surviving_filing_required {lib : PyLib} (data : json) (filings : list Filing)
    (f : Filing) :
  _parse_filings data = Ok filings → f ∈ filings →
  ∃ (i : nat) (s_date s_time : string) (v_size : json),
    column_at data "accessionNumber" i = Ok (JStr (accession_number f))
    ∧ column_at data "form" i = Ok (JStr (form f))
    ∧ column_at data "filingDate" i = Ok (JStr s_date)
    ∧ strptime_date s_date = Some (filing_date f)
    ∧ column_at data "acceptanceDateTime" i = Ok (JStr s_time)
    ∧ strptime_datetime_z (py_replace ".000Z" "+0000" s_time) = Some (acceptance_time f)
    ∧ column_at data "size" i = Ok v_size
    ∧ validate_int v_size = Some (size f).
Proof.
  unfold _parse_filings. intros H Hf.
  apply bind_Ok in H as (n & _ & H).
  destruct (parse_loop_elem _ _ _ _ _ _ H Hf) as [Hin|(i & _ & Hi)];
    [by apply elem_of_nil in Hin|].
  apply parse_record_Ok in Hi
    as (vfd & vat & vsz & _ & _ & _ & Han & Hfo & Hvfd & Hfd & Hvat & Hat & Hvsz & Hsz & _).
  destruct vfd as [| | | |s_date| |]; try discriminate.
  destruct vat as [| | | |s_time| |]; try discriminate.
  simpl in Hfd, Hat. apply or_raise_Ok in Hfd, Hat.
  exists i, s_date, s_time, vsz. by repeat split.
Qed.

Lemma surviving_filing_required_witness :
  ∃ (i : nat) (s_date s_time : string) (v_size : json),
    column_at block_two "accessionNumber" i = Ok (JStr (accession_number filing_10k))
    ∧ column_at block_two "form" i = Ok (JStr (form filing_10k))
    ∧ column_at block_two "filingDate" i = Ok (JStr s_date)
    ∧ strptime_date s_date = Some (filing_date filing_10k)
    ∧ column_at block_two "acceptanceDateTime" i = Ok (JStr s_time)
    ∧ strptime_datetime_z (py_replace ".000Z" "+0000" s_time)
      = Some (acceptance_time filing_10k)
    ∧ column_at block_two "size" i = Ok v_size
    ∧ validate_int (lib := sample_lib) v_size = Some (size filing_10k).
Proof.
  apply (surviving_filing_required (lib := sample_lib) block_two
           [filing_10k; filing_8k] filing_10k).
  - vm_compute. reflexivity.
  - left.
Defined.

(** A record whose size entry is [-5] survives, with a negative size. *)
Lemma negative_size_survives :
  _parse_filings (lib := sample_lib) block_negative_size = Ok [filing_negative_size]
  ∧ (size filing_negative_size < 0)%Z.
Proof. split; [vm_compute; reflexivity | reflexivity]. Qed.

(** The items list is set exactly when the items column has a usable value
    at the index. *)
Lemma items_set_iff {lib : PyLib} (data : json) (n i : nat) (f : Filing) :
  parse_record data n i = Ok f →
  is_Some (items f) ↔ ∃ x, field_present data "items" i x.
Proof.
  intros H. apply parse_record_Ok in H
    as (vfd & vat & vsz & ord & oact & oit & _ & _ & _ & _ & _ & _ & _ & _
        & _ & _ & _ & _ & Hoit & Hit).
  pose proof (present_value_iff _ _ _ _ Hoit) as Pi. split.
  - intros [l Hl]. destruct oit as [v|]; [|rewrite Hl in Hit; discriminate].
    exists v. by apply Pi.
  - intros [x Hx]. apply Pi in Hx as ->.
    apply fmap_Ok in Hit as (l & _ & ->). by eexists.
Qed.

(** ** Conditionally-present fields *)

(** C8.  For a record that yields a [Filing], each of [report_date], [act]
    and [items] is set exactly when its column exists, the index is within
    it and the value there is true; an empty report date leaves
    [report_date] unset and a valid one is parsed into it. *)
Theorem conditional_fields {lib : PyLib} (data : json) (n i : nat) (f : Filing) :
  parse_record data n i = Ok f →
  (is_Some (report_date f) ↔ ∃ x, field_present data "reportDate" i x)
  ∧ (is_Some (act f) ↔ ∃ x, field_present data "act" i x)
  ∧ (is_Some (items f) ↔ ∃ x, field_present data "items" i x)
  ∧ (column_at data "reportDate" i = Ok (JStr "") → report_date f = None)
  ∧ (∀ s d, column_at data "reportDate" i = Ok (JStr s) →
       strptime_date s = Some d → report_date f = Some d)
  ∧ (∀ s, field_present data "act" i (JStr s) → act f = Some s).
Proof.
  intros Hrec. pose proof Hrec as H. apply parse_record_Ok in H
    as (vfd & vat & vsz & ord & oact & oit & _ & _ & _ & _ & _ & _ & _ & _
        & Hord & Hrd & Hoact & Hact & _ & _).
  pose proof (present_value_iff _ _ _ _ Hord) as Pr.
  pose proof (present_value_iff _ _ _ _ Hoact) as Pa.
  assert (Hset_r : is_Some (report_date f) ↔ ∃ x, field_present data "reportDate" i x).
  { split.
    - intros [d Hd]. destruct ord as [v|]; [|rewrite Hd in Hrd; discriminate].
      exists v. by apply Pr.
    - intros [x Hx]. apply Pr in Hx as ->.
      apply fmap_Ok in Hrd as (d & _ & ->). by eexists. }
  assert (Hact_v : ∀ x, field_present data "act" i x → ∃ s, x = JStr s ∧ act f = Some s).
  { intros x Hx. pose proof Hx as (_ & _ & _ & Hb). apply Pa in Hx as ->.
    destruct x; try discriminate; simpl in Hact; try discriminate.
    injection Hact as <-. eauto. }
  repeat split.
  - apply Hset_r.
  - apply Hset_r.
  - intros [s Hs]. destruct oact as [v|]; [|simpl in Hact; congruence].
    exists v. by apply Pa.
  - intros [x Hx]. destruct (Hact_v x Hx) as (s & _ & ->). by eexists.
  - apply (items_set_iff data n i f Hrec).
  - apply (items_set_iff data n i f Hrec).
  - intros Hc. destruct (report_date f) as [d|] eqn:Hd; [|done].
    destruct (proj1 Hset_r) as [x Hx]; [by eexists|].
    apply field_present_column in Hx as [Hx Hb]. rewrite Hc in Hx.
    injection Hx as <-. discriminate.
  - intros s d Hc Hs.
    assert (Hp : field_present data "reportDate" i (JStr s)).
    { apply field_present_column. split; [done|].
      destruct s; [vm_compute in Hs; discriminate | done]. }
    apply Pr in Hp as ->. simpl in Hrd. rewrite Hs in Hrd. simpl in Hrd. congruence.
  - intros s Hs. destruct (Hact_v _ Hs) as (s' & [= <-] & ->). done.
Qed.

Lemma conditional_fields_witness :
  (is_Some (report_date filing_10k) ↔ ∃ x, field_present block_two "reportDate" 0 x)
  ∧ (is_Some (act filing_10k) ↔ ∃ x, field_present block_two "act" 0 x)
  ∧ (is_Some (items filing_10k) ↔ ∃ x, field_present block_two "items" 0 x)
  ∧ (column_at block_two "reportDate" 0 = Ok (JStr "") → report_date filing_10k = None)
  ∧ (∀ s d, column_at block_two "reportDate" 0 = Ok (JStr s) →
       strptime_date s = Some d → report_date filing_10k = Some d)
  ∧ (∀ s, field_present block_two "act" 0 (JStr s) → act filing_10k = Some s).
Proof.
  apply (conditional_fields (lib := sample_lib) block_two 2 0 filing_10k).
  vm_compute. reflexivity.
Defined.

(** ** The items list *)

(** C7, as amended.  For a record that yields a [Filing] and whose items
    value is a non-empty string, [items] is the list of the pieces between
    the commas, trimmed, without the pieces that are empty once trimmed;
    ["2.01, 9.01,  "] gives [["2.01"; "9.01"]].  [items] is left unset
    exactly when the column is absent, too short, or false at the index: a
    non-empty value all of whose pieces are blank sets it to the empty
    list. *)
Theorem items_split {lib : PyLib} (data : json) (n i : nat) (f : Filing) :
  parse_record data n i = Ok f →
  (∀ s, column_at data "items" i = Ok (JStr s) → s ≠ EmptyString →
     items f = Some (item_pieces s)
     ∧ ∀ piece, piece ∈ item_pieces s → piece ≠ EmptyString ∧ py_strip piece = piece)
  ∧ (items f = None ↔ ¬ ∃ x, field_present data "items" i x)
  ∧ item_pieces "2.01, 9.01,  " = ["2.01"; "9.01"]
  ∧ item_pieces " , " = [].
Proof.
  intros H. pose proof (items_set_iff _ _ _ _ H) as Hset.
  apply parse_record_Ok in H
    as (vfd & vat & vsz & ord & oact & oit & _ & _ & _ & _ & _ & _ & _ & _
        & _ & _ & _ & _ & Hoit & Hit).
  split; [|split; [split|split; reflexivity]].
  - intros s Hc Hs. split; [|apply item_pieces_trimmed].
    assert (Hp : field_present data "items" i (JStr s)).
    { apply field_present_column. split; [done|]. by destruct s. }
    apply (present_value_iff _ _ _ _ Hoit) in Hp as ->.
    simpl in Hit. by injection Hit as <-.
  - intros Hn Hx. apply Hset in Hx as [l Hl]. congruence.
  - intros Hn. destruct (items f) as [l|] eqn:Hl; [|done].
    exfalso. apply Hn, Hset. by eexists.
Qed.

Lemma items_split_witness :
  (∀ s, column_at block_two "items" 1 = Ok (JStr s) → s ≠ EmptyString →
     items filing_8k = Some (item_pieces s)
     ∧ ∀ piece, piece ∈ item_pieces s → piece ≠ EmptyString ∧ py_strip piece = piece)
  ∧ (items filing_8k = None ↔ ¬ ∃ x, field_present block_two "items" 1 x)
  ∧ item_pieces "2.01, 9.01,  " = ["2.01"; "9.01"]
  ∧ item_pieces " , " = [].
Proof.
  apply (items_split (lib := sample_lib) block_two 2 1 filing_8k).
  vm_compute. reflexivity.
Defined.

(** A record whose items value is [" , "] survives with [items] set to the
    empty list. *)
Lemma blank_items_set_empty :
  column_at block_blank_items "items" 0 = Ok (JStr " , ")
  ∧ _parse_filings (lib := sample_lib) block_blank_items = Ok [filing_blank_items]
  ∧ items filing_blank_items = Some [].
Proof. repeat split; vm_compute; reflexivity. Qed.

(** ** Isolation of a failing record *)

Lemma omap_all_Some {A B} (h : A → option B) (g : A → B) (l : list A) :
  (∀ x, x ∈ l → h x = Some (g x)) → omap h l = g <$> l.
Proof.
  induction l as [|x l IH]; intros Hl; simpl; [done|].
  rewrite (Hl x) by left. f_equal. apply IH. intros y Hy. apply Hl. by right.
Qed.

Lemma omap_all_None {A B} (h : A → option B) (l : list A) :
  (∀ x, x ∈ l → h x = None) → omap h l = [].
Proof.
  induction l as [|x l IH]; intros Hl; simpl; [done|].
  rewrite (Hl x) by left. apply IH. intros y Hy. apply Hl. by right.
Qed.

Lemma seq_split (i n : nat) :
  (i < n)%nat → seq 0 n = seq 0 i ++ i :: seq (S i) (n - S i).
Proof.
  intros Hi. replace n with (i + S (n - S i))%nat at 1 by lia.
  by rewrite seq_app.
Qed.

(** When the record at index [i] alone fails, and fails with an exception
    the handler takes, the block of [n] records yields the other [n - 1]
    records in the order of the block, and nothing is raised. *)
Lemma one_handled_failure_isolated {lib : PyLib} (data col : json) (n i : nat)
    (e : exn) (g : nat → Filing) :
  getitem_key data "accessionNumber" = Ok col → py_len col = Ok n →
  (i < n)%nat → parse_record data n i = Raise e → handled e = true →
  (∀ j, (j < n)%nat → j ≠ i → parse_record data n j = Ok (g j)) →
  _parse_filings data = Ok (g <$> (seq 0 i ++ seq (S i) (n - S i)))
  ∧ length (g <$> (seq 0 i ++ seq (S i) (n - S i))) = (n - 1)%nat.
Proof.
  intros Hcol Hn Hi He Hh Hothers. split.
  - unfold _parse_filings. rewrite Hcol. simpl. rewrite Hn. simpl.
    rewrite parse_loop_handled.
    + simpl. f_equal.
      rewrite (seq_split i n) by done.
      rewrite omap_app. simpl. unfold surviving at 2. rewrite He.
      rewrite fmap_app. f_equal; apply omap_all_Some; intros j Hj;
        apply elem_of_seq in Hj; unfold surviving; rewrite Hothers; (done || lia).
    + intros j e' Hj Hr. destruct (decide (j = i)) as [->|Hne]; [congruence|].
      apply elem_of_seq in Hj. rewrite Hothers in Hr; [discriminate | lia | done].
  - rewrite length_fmap, length_app, !length_seq. lia.
Qed.

(** A malformed date string at one index: the record is passed over. *)
Lemma bad_date_isolated :
  _parse_filings (lib := sample_lib) block_bad_date = Ok [filing_plain].
Proof. vm_compute. reflexivity. Qed.

(** C1 at a block of two records whose second filing date is [null]: the
    first index yields a record, the second fails the conversion of its
    filing date with a [TypeError], which the handler does not take, and the
    call raises instead of returning the one good record. *)
Lemma null_date_aborts_batch :
  parse_record (lib := sample_lib) block_null_date 2 0 = Ok filing_plain
  ∧ parse_record (lib := sample_lib) block_null_date 2 1 = Raise TypeError
  ∧ handled TypeError = false
  ∧ _parse_filings (lib := sample_lib) block_null_date = Raise TypeError.
Proof. repeat split; vm_compute; reflexivity. Qed.

(** ** Missing columns *)

(** Without the accession-number column the count of records cannot be
    taken and the call raises [KeyError]. *)
Lemma missing_accession_raises {lib : PyLib} (m : gmap string json) :
  m !! "accessionNumber" = None → _parse_filings (JObj m) = Raise KeyError.
Proof. intros H. unfold _parse_filings. simpl. by rewrite H. Qed.

Lemma column_at_strs (m : gmap string json) (k : string) (l : list string) (i : nat) :
  m !! k = Some (strs l) →
  column_at (JObj m) k i = Raise IndexError
  ∨ ∃ s, column_at (JObj m) k i = Ok (JStr s).
Proof.
  intros H. unfold column_at, strs. simpl. rewrite H. simpl.
  rewrite list_lookup_fmap. destruct (l !! i); simpl; eauto.
Qed.

Lemma column_at_missing (m : gmap string json) (k : string) (i : nat) :
  m !! k = None → column_at (JObj m) k i = Raise KeyError.
Proof. intros H. unfold column_at. simpl. by rewrite H. Qed.

(** With the accession numbers in an array, one of the other four required
    columns missing, and the columns read before it arrays of strings, every
    index raises an exception the handler takes. *)
Lemma missing_required_record_skipped {lib : PyLib} (m : gmap string json)
    (accs : list json) (n i : nat) :
  m !! "accessionNumber" = Some (JArr accs) → (i < length accs)%nat →
  strings_if_present m "form" → strings_if_present m "filingDate" →
  strings_if_present m "acceptanceDateTime" →
  m !! "form" = None ∨ m !! "filingDate" = None
    ∨ m !! "acceptanceDateTime" = None ∨ m !! "size" = None →
  skipped (parse_record (JObj m) n i).
Proof.
  intros Hacc Hi Hform Hfd Hat Hmiss. unfold parse_record.
  assert (∃ an, column_at (JObj m) "accessionNumber" i = Ok an) as [an ->].
  { unfold column_at. simpl. rewrite Hacc. simpl.
    destruct (lookup_lt_is_Some_2 accs i Hi) as [an ->]. by exists an. }
  step.
  destruct Hform as [Hform|[lf Hform]].
  { rewrite (column_at_missing m "form" i Hform). by exists KeyError. }
  destruct (column_at_strs _ _ _ i Hform) as [->|[fo ->]]; [by exists IndexError|].
  step.
  destruct Hfd as [Hfd|[lfd Hfd]].
  { rewrite (column_at_missing m "filingDate" i Hfd). by exists KeyError. }
  destruct (column_at_strs _ _ _ i Hfd) as [->|[sfd ->]]; [by exists IndexError|].
  step. unfold py_strptime_date. step.
  destruct (strptime_date sfd); step; [|by exists ValueError].
  destruct Hat as [Hat|[lat Hat]].
  { rewrite (column_at_missing m "acceptanceDateTime" i Hat). by exists KeyError. }
  destruct (column_at_strs _ _ _ i Hat) as [->|[sat ->]]; [by exists IndexError|].
  step. unfold parse_acceptance. step.
  destruct (strptime_datetime_z _); step; [|by exists ValueError].
  destruct Hmiss as [Hm|[Hm|[Hm|Hm]]]; try congruence.
  rewrite (column_at_missing m "size" i Hm). by exists KeyError.
Qed.

(** Under the same conditions the call returns the empty list. *)
Lemma missing_required_returns_empty {lib : PyLib} (m : gmap string json)
    (accs : list json) :
  m !! "accessionNumber" = Some (JArr accs) →
  strings_if_present m "form" → strings_if_present m "filingDate" →
  strings_if_present m "acceptanceDateTime" →
  m !! "form" = None ∨ m !! "filingDate" = None
    ∨ m !! "acceptanceDateTime" = None ∨ m !! "size" = None →
  _parse_filings (JObj m) = Ok [].
Proof.
  intros Hacc Hform Hfd Hat Hmiss. unfold _parse_filings. simpl.
  rewrite Hacc. simpl.
  assert (Hsk : ∀ i, i ∈ seq 0 (length accs) →
            skipped (parse_record (JObj m) (length accs) i)).
  { intros i Hi. apply elem_of_seq in Hi.
    eapply missing_required_record_skipped; eauto. lia. }
  rewrite parse_loop_handled.
  - simpl. f_equal. apply omap_all_None. intros i Hi.
    destruct (Hsk i Hi) as (e & He & _). unfold surviving. by rewrite He.
  - intros i e Hi He. destruct (Hsk i Hi) as (e' & He' & Hh). congruence.
Qed.

(** C10 at a block without the size column whose filing date is [null]:
    the accession-number array is there and a required array is missing,
    yet the conversion of the filing date is reached first and its
    [TypeError] leaves the call. *)
Lemma missing_size_null_date_raises :
  getitem_key block_no_size_null_date "accessionNumber"
    = Ok (strs ["0000320193-24-000081"])
  ∧ getitem_key block_no_size_null_date "size" = Raise KeyError
  ∧ _parse_filings (lib := sample_lib) block_no_size_null_date = Raise TypeError.
Proof. repeat split; vm_compute; reflexivity. Qed.

(** ** The filter stage *)

Lemma existsb_eqb_elem_of (x : string) (l : list string) :
  existsb (String.eqb x) l = bool_decide (x ∈ l).
Proof.
  apply Bool.eq_iff_eq_true. rewrite existsb_exists, bool_decide_eq_true. split.
  - intros (y & Hy & Heq). apply String.eqb_eq in Heq as ->. by apply list_elem_of_In.
  - intros H. exists x. split; [by apply list_elem_of_In | apply String.eqb_refl].
Qed.

Section filter_stage.
Variables (start_date end_date : option datetime).
Variables (forms : option (list string)) (limit : option Z).
Hypothesis start_naive : ∀ d, start_date = Some d → naive d.
Hypothesis end_naive : ∀ d, end_date = Some d → naive d.
Hypothesis forms_not_empty : forms ≠ Some [].

(** On a record with a naive filing date the three tests of the loop
    decide the inclusion test. *)
Lemma loop_tests (f : Filing) :
  naive (filing_date f) →
  ∃ early late,
    and_date start_date (λ d, dt_lt (filing_date f) d) = Ok early
    ∧ and_date end_date (λ d, dt_gt (filing_date f) d) = Ok late
    ∧ included start_date end_date forms f
      = negb early && negb late && negb (form_rejected forms (form f)).
Proof.
  intros Hf. unfold included, naive in *.
  assert (∃ early, and_date start_date (λ d, dt_lt (filing_date f) d) = Ok early
            ∧ from_option (on_or_after (filing_date f)) true start_date = negb early)
    as (early & -> & ->).
  { destruct start_date as [d|]; cbn [and_date from_option]; [|by exists false].
    unfold dt_lt, dt_cmp, on_or_after. rewrite Hf, (start_naive d eq_refl). step.
    eexists. split; [reflexivity|].
    by destruct (lex_cmp (fields (filing_date f)) (fields d)). }
  assert (∃ late, and_date end_date (λ d, dt_gt (filing_date f) d) = Ok late
            ∧ from_option (on_or_before (filing_date f)) true end_date = negb late)
    as (late & -> & ->).
  { destruct end_date as [d|]; cbn [and_date from_option]; [|by exists false].
    unfold dt_gt, dt_cmp, on_or_before. rewrite Hf, (end_naive d eq_refl). step.
    eexists. split; [reflexivity|].
    by destruct (lex_cmp (fields (filing_date f)) (fields d)). }
  exists early, late. repeat split. f_equal.
  destruct forms as [[|x l]|]; simpl; [done| |done].
  by rewrite <- (existsb_eqb_elem_of (form f) (x :: l)), negb_involutive.
Qed.

(** The loop, started with [acc] collected and the limit not reached yet,
    appends the matching records up to the limit. *)
Lemma filter_loop_acc (all_filings acc : list Filing) :
  Forall (λ f, naive (filing_date f)) all_filings →
  (∀ n, limit = Some n → (Z.of_nat (length acc) < n)%Z) →
  filter_loop start_date end_date forms limit all_filings acc
  = Ok (acc ++
        let matches := List.filter (included start_date end_date forms) all_filings in
        match limit with
        | Some n => take (Z.to_nat n - length acc) matches
        | None => matches
        end).
Proof.
  intros Hall. revert acc.
  induction Hall as [|f rest Hf _ IH]; intros acc Hlim.
  - cbn [filter_loop List.filter]. destruct limit; by rewrite ?take_nil, app_nil_r.
  - destruct (loop_tests f Hf) as (early & late & He & Hl & Hinc).
    cbn [filter_loop List.filter]. rewrite He. step. rewrite Hinc.
    destruct early; [by apply IH|]. rewrite Hl. step.
    destruct late; [by apply IH|].
    destruct (form_rejected forms (form f)); [by apply IH|].
    cbn [negb andb].
    destruct limit as [n|] eqn:Hn.
    + specialize (Hlim n eq_refl). unfold limit_reached.
      rewrite length_app. cbn [length].
      assert ((n =? 0)%Z = false) as -> by lia. cbn [negb andb].
      destruct (Z.leb_spec n (Z.of_nat (length acc + 1))) as [Hle|Hle].
      * replace (Z.to_nat n - length acc)%nat with 1%nat by lia.
        cbn [take]. by rewrite take_0.
      * rewrite IH.
        -- rewrite length_app. cbn [length].
           replace (Z.to_nat n - length acc)%nat
             with (S (Z.to_nat n - (length acc + 1)))%nat by lia.
           cbn [take]. by rewrite <- app_assoc.
        -- intros n' [= <-]. rewrite length_app. cbn [length]. lia.
    + cbn [limit_reached]. rewrite IH; [by rewrite <- app_assoc | done].
Qed.
End filter_stage.

(** C4, as amended.  With naive bounds (as every filing date is), a form
    list that is not empty when given and a limit of at least one when
    given, the filter stage keeps a record exactly when its filing date is
    on or after the start date (when given), on or before the end date (when
    given) and its form is in the form list (when given); it returns the
    matching records in the order of the sequence, cut after the first
    [limit] of them, that is the first [min limit (number of matches)]
    matching records. *)
Theorem filter_stage_first_matches (start_date end_date : option datetime)
    (forms : option (list string)) (limit : option Z) (all_filings : list Filing) :
  (∀ d, start_date = Some d → naive d) →
  (∀ d, end_date = Some d → naive d) →
  Forall (λ f, naive (filing_date f)) all_filings →
  forms ≠ Some [] →
  (∀ n, limit = Some n → (1 ≤ n)%Z) →
  filter_loop start_date end_date forms limit all_filings []
  = Ok (match limit with
        | Some n => take (Z.to_nat n)
                      (List.filter (included start_date end_date forms) all_filings)
        | None => List.filter (included start_date end_date forms) all_filings
        end)
  ∧ (∀ n, limit = Some n →
       length (take (Z.to_nat n)
                 (List.filter (included start_date end_date forms) all_filings))
       = Z.to_nat n `min`
         length (List.filter (included start_date end_date forms) all_filings)).
Proof.
  intros Hs He Hall Hforms Hlimit. split.
  - rewrite filter_loop_acc; try done.
    + cbn [app length]. destruct limit; [|done]. by rewrite Nat.sub_0_r.
    + intros n Hn. specialize (Hlimit n Hn). cbn [length]. lia.
  - intros n _. apply length_take.
Qed.

Lemma filter_stage_first_matches_witness :
  filter_loop (Some (mk_datetime 2023 9 1 0 0 0 0 None)) None (Some ["8-K"])
    (Some 2%Z) five_filings []
  = Ok (take (Z.to_nat 2)
          (List.filter
             (included (Some (mk_datetime 2023 9 1 0 0 0 0 None)) None (Some ["8-K"]))
             five_filings))
  ∧ (∀ n, Some 2%Z = Some n →
       length (take (Z.to_nat n)
                 (List.filter
                    (included (Some (mk_datetime 2023 9 1 0 0 0 0 None)) None
                       (Some ["8-K"]))
                    five_filings))
       = Z.to_nat n `min`
         length (List.filter
                   (included (Some (mk_datetime 2023 9 1 0 0 0 0 None)) None
                      (Some ["8-K"]))
                   five_filings)).
Proof.
  apply (filter_stage_first_matches (Some (mk_datetime 2023 9 1 0 0 0 0 None)) None
           (Some ["8-K"]) (Some 2%Z) five_filings).
  - intros d [= <-]. reflexivity.
  - intros d [=].
  - repeat constructor.
  - intros [=].
  - intros n [= <-]. lia.
Defined.

(** Of the five records three are 8-K filings; with the limit 2 the two
    newest of them are returned. *)
Example filter_limit_two :
  filter_loop None None (Some ["8-K"]) (Some 2%Z) five_filings []
  = Ok [sample_filing "0000320193-24-000005" "8-K" 2024 5 2;
        sample_filing "0000320193-24-000003" "8-K" 2024 2 1].
Proof. vm_compute. reflexivity. Qed.

(** A limit of zero and an empty form list count as not given, a negative
    limit stops after the first match, and an aware bound cannot be compared
    with a filing date. *)
Lemma filter_stage_falsy_arguments :
  filter_loop None None None (Some 0%Z) five_filings [] = Ok five_filings
  ∧ take (Z.to_nat 0) (List.filter (included None None None) five_filings) = []
  ∧ filter_loop None None (Some []) None five_filings [] = Ok five_filings
  ∧ List.filter (included None None (Some [])) five_filings = []
  ∧ filter_loop None None None (Some (-1)%Z) five_filings [] = Ok (take 1 five_filings)
  ∧ filter_loop (Some aware_new_year) None None None five_filings [] = Raise TypeError.
Proof. repeat split; vm_compute; reflexivity. Qed.

(** ** The aggregator *)

(** The two kinds of step of a computation that sends requests. *)
Lemma io_bind_lift {A B} (r : result A) (k : A → io B) (t : list string) :
  (lift r ≫= k) t = match r with Ok a => k a t | Raise e => (t, Raise e) end.
Proof. by destruct r. Qed.

Lemma io_bind_get {B} (self : EDGARClient) (url : string) (k : Response → io B)
    (t : list string) :
  (_get self url ≫= k) t
  = match get_outcome self url with
    | Ok response => k response (t ++ [url])
    | Raise e => (t ++ [url], Raise e)
    end.
Proof. unfold _get. cbv [mbind io_mbind io_bind]. by destruct (get_outcome self url). Qed.

Lemma fetch_json_Ok (self : EDGARClient) (url : string) (doc : json) :
  fetch_json self url = Ok doc ↔
  ∃ response, get_outcome self url = Ok response ∧ json_body response = Ok doc.
Proof.
  unfold fetch_json. split.
  - intros H. by apply bind_Ok in H.
  - intros (response & -> & H). done.
Qed.

(** The loop over the file list, when every overflow document is obtained
    and normalized: the records are appended file after file. *)
Lemma fetch_files_Ok {lib : PyLib} (self : EDGARClient) (files : list json)
    (ls : list (list Filing)) (acc : list Filing) (t : list string) :
  Forall2 (λ file l, overflow_records self file = Ok l) files ls →
  (fetch_files self files acc t).2 = Ok (acc ++ concat ls).
Proof.
  intros H. revert acc t.
  induction H as [|file l files ls Hfile _ IH]; intros acc t.
  - simpl. by rewrite app_nil_r.
  - unfold overflow_records in Hfile.
    apply bind_Ok in Hfile as (name & Hname & Hfile).
    apply bind_Ok in Hfile as (file_data & Hdata & Hfile).
    apply fetch_json_Ok in Hdata as (response & Hget & Hjson).
    unfold file_url in Hget.
    cbn [fetch_files]. rewrite io_bind_lift, Hname, io_bind_get, Hget.
    rewrite io_bind_lift, Hjson, io_bind_lift, Hfile.
    rewrite IH. cbn [concat]. by rewrite app_assoc.
Qed.

(** Conversely, when the loop returns, every entry of the file list was
    requested, obtained and normalized. *)
Lemma fetch_files_Ok_inv {lib : PyLib} (self : EDGARClient) (files : list json)
    (acc all_filings : list Filing) (t t' : list string) :
  fetch_files self files acc t = (t', Ok all_filings) →
  ∃ ls urls,
    Forall2 (λ file l, overflow_records self file = Ok l) files ls
    ∧ all_filings = acc ++ concat ls
    ∧ t' = t ++ urls
    ∧ Forall2 requested_for files urls.
Proof.
  revert acc t. induction files as [|file files IH]; intros acc t H.
  - cbn in H. injection H as <- <-. exists [], [].
    by rewrite !app_nil_r.
  - cbn [fetch_files] in H. rewrite io_bind_lift in H.
    destruct (getitem_key file "name") as [name|e] eqn:Hname; [|discriminate].
    rewrite io_bind_get in H.
    destruct (get_outcome self _) as [response|e] eqn:Hget; [|discriminate].
    rewrite io_bind_lift in H.
    destruct (json_body response) as [file_data|e] eqn:Hjson; [|discriminate].
    rewrite io_bind_lift in H.
    destruct (_parse_filings file_data) as [l|e] eqn:Hparse; [|discriminate].
    apply IH in H as (ls & urls & Hls & -> & -> & Hurls).
    exists (l :: ls), (file_url name :: urls). repeat split.
    + constructor; [|done]. unfold overflow_records. rewrite Hname. step.
      unfold fetch_json, file_url. rewrite Hget. step. rewrite Hjson. done.
    + cbn [concat]. by rewrite app_assoc.
    + by rewrite <- app_assoc.
    + constructor; [|done]. by exists name.
Qed.

(** [get_filings], step by step. *)
Lemma get_filings_steps {lib : PyLib} (self : EDGARClient) (cik : string)
    (start_date end_date : option datetime) (forms : option (list string))
    (limit : option Z) (t : list string) :
  get_filings self cik start_date end_date forms limit t
  = match py_int cik with
    | None => (t, Raise ValueError)
    | Some n =>
      match get_outcome self (primary_url n) with
      | Raise e => (t ++ [primary_url n], Raise e)
      | Ok response =>
        match json_body response with
        | Raise e => (t ++ [primary_url n], Raise e)
        | Ok data =>
          match (filings ← getitem_key data "filings";
                 recent ← getitem_key filings "recent";
                 _parse_filings recent) with
          | Raise e => (t ++ [primary_url n], Raise e)
          | Ok main_filings =>
            match (filings ← getitem_key data "filings";
                   files ← getitem_key filings "files";
                   py_iter files) with
            | Raise e => (t ++ [primary_url n], Raise e)
            | Ok files =>
              match fetch_files self files main_filings (t ++ [primary_url n]) with
              | (t', Ok all_filings) =>
                  (t', filter_loop start_date end_date forms limit all_filings [])
              | (t', Raise e) => (t', Raise e)
              end
            end
          end
        end
      end
    end.
Proof.
  unfold get_filings, primary_url. rewrite io_bind_lift.
  destruct (py_int cik) as [n|]; [|done]. cbn [or_raise].
  rewrite io_bind_get. destruct (get_outcome self _) as [response|e]; [|done].
  rewrite io_bind_lift. destruct (json_body response) as [data|e]; [|done].
  rewrite io_bind_lift.
  destruct (getitem_key data "filings" ≫= _) as [main_filings|e]; [|done].
  rewrite io_bind_lift.
  destruct (getitem_key data "filings" ≫= _) as [files|e]; [|done].
  cbv [mbind io_mbind io_bind lift].
  by destruct (fetch_files self files main_filings _) as [t' [all_filings|e]].
Qed.

(** With no filter the loop of the filter stage returns the sequence. *)
Lemma filter_loop_no_filters (all_filings : list Filing) :
  filter_loop None None None None all_filings [] = Ok all_filings.
Proof.
  enough (∀ acc, filter_loop None None None None all_filings acc
                 = Ok (acc ++ all_filings)) as H by apply H.
  induction all_filings as [|f rest IH]; intros acc; simpl.
  - by rewrite app_nil_r.
  - rewrite IH. by rewrite <- app_assoc.
Qed.

(** C2.  When the primary document and the overflow documents it lists are
    obtained and normalized, [get_filings] called with no filter returns the
    records of [filings.recent] followed by the records of each overflow
    document, in the order of the file list; and the filter stage hands on
    any sequence unchanged when no filter is given. *)
Theorem get_filings_concatenation {lib : PyLib} (self : EDGARClient) (cik : string)
    (n : Z) (doc filings recent : json) (files : list json)
    (main_filings : list Filing) (overflow : list (list Filing)) :
  py_int cik = Some n →
  fetch_json self (primary_url n) = Ok doc →
  getitem_key doc "filings" = Ok filings →
  getitem_key filings "recent" = Ok recent →
  getitem_key filings "files" = Ok (JArr files) →
  _parse_filings recent = Ok main_filings →
  Forall2 (λ file l, overflow_records self file = Ok l) files overflow →
  returned (get_filings self cik None None None None)
  = Ok (main_filings ++ concat overflow)
  ∧ ∀ all_filings, filter_loop None None None None all_filings [] = Ok all_filings.
Proof.
  intros Hcik Hdoc Hfilings Hrecent Hfiles Hmain Hover.
  split; [|apply filter_loop_no_filters].
  apply fetch_json_Ok in Hdoc as (response & Hget & Hjson).
  unfold returned. rewrite get_filings_steps, Hcik, Hget, Hjson, Hfilings.
  step. rewrite Hrecent, Hfiles. step. rewrite Hmain. cbn [py_iter].
  pose proof (fetch_files_Ok self files overflow main_filings ([] ++ [primary_url n]) Hover)
    as Hloop.
  destruct (fetch_files self files main_filings _) as [t' r]. cbn [snd] in Hloop.
  subst r. cbn [snd]. apply filter_loop_no_filters.
Qed.

Lemma get_filings_concatenation_witness :
  returned (get_filings (lib := sample_lib) server_two "320193" None None None None)
  = Ok ([filing_10k; filing_8k] ++ concat [[filing_negative_size]])
  ∧ ∀ all_filings, filter_loop None None None None all_filings [] = Ok all_filings.
Proof.
  apply (get_filings_concatenation (lib := sample_lib) server_two "320193" 320193
           primary_document_two filings_section_two block_two [overflow_entry]
           [filing_10k; filing_8k] [[filing_negative_size]]).
  - reflexivity.
  - vm_compute. reflexivity.
  - vm_compute. reflexivity.
  - vm_compute. reflexivity.
  - vm_compute. reflexivity.
  - vm_compute. reflexivity.
  - constructor; [vm_compute; reflexivity | constructor].
Defined.

(** ** Faults of a document *)

Lemma fetch_json_get_outcome (self : EDGARClient) (url : string) (e : exn) :
  get_outcome self url = Raise e → fetch_json self url = Raise e.
Proof. unfold fetch_json. by intros ->. Qed.

Lemma faults_surface_last {A} (self : EDGARClient) (t : list string) (u : string) (e : exn) :
  Forall (λ u, ∃ doc, fetch_json self u = Ok doc) t →
  fetch_json self u = Raise e →
  faults_surface (A := A) self (t ++ [u]) (Raise e).
Proof. intros Ht Hu. right. by exists t, u, e. Qed.

(** The loop over the file list surfaces the fault of a document. *)
Lemma fetch_files_faults {lib : PyLib} (self : EDGARClient) (files : list json)
    (acc : list Filing) (t : list string) :
  Forall (λ u, ∃ doc, fetch_json self u = Ok doc) t →
  faults_surface self (fetch_files self files acc t).1 (fetch_files self files acc t).2.
Proof.
  revert acc t. induction files as [|file files IH]; intros acc t Ht.
  - by left.
  - cbn [fetch_files]. rewrite io_bind_lift.
    destruct (getitem_key file "name") as [name|e]; [|by left].
    rewrite io_bind_get.
    destruct (get_outcome self _) as [response|e] eqn:Hget.
    2:{ apply faults_surface_last; [done|]. by apply fetch_json_get_outcome. }
    rewrite io_bind_lift.
    destruct (json_body response) as [file_data|e] eqn:Hjson.
    2:{ apply faults_surface_last; [done|]. unfold fetch_json. by rewrite Hget. }
    assert (Ht' : Forall (λ u, ∃ doc, fetch_json self u = Ok doc)
                    (t ++ [urljoin DATA_URL ("submissions/" +:+ fstring name)])).
    { apply Forall_app. split; [done|]. constructor; [|done].
      exists file_data. apply fetch_json_Ok. eauto. }
    rewrite io_bind_lift.
    destruct (_parse_filings file_data) as [l|e]; [|by left].
    by apply IH.
Qed.

(** So does the whole call. *)
Lemma get_filings_faults {lib : PyLib} (self : EDGARClient) (cik : string)
    (start_date end_date : option datetime) (forms : option (list string))
    (limit : option Z) :
  faults_surface self
    (requests (get_filings self cik start_date end_date forms limit))
    (returned (get_filings self cik start_date end_date forms limit)).
Proof.
  unfold requests, returned. rewrite get_filings_steps.
  destruct (py_int cik) as [n|]; [|by left].
  destruct (get_outcome self (primary_url n)) as [response|e] eqn:Hget.
  2:{ apply faults_surface_last; [done|]. by apply fetch_json_get_outcome. }
  destruct (json_body response) as [data|e] eqn:Hjson.
  2:{ apply faults_surface_last; [done|]. unfold fetch_json. by rewrite Hget. }
  assert (Ht : Forall (λ u, ∃ doc, fetch_json self u = Ok doc) ([] ++ [primary_url n])).
  { constructor; [|done]. exists data. apply fetch_json_Ok. eauto. }
  destruct (getitem_key data "filings" ≫= _) as [main_filings|e]; [|by left].
  destruct (getitem_key data "filings" ≫= _) as [files|e]; [|by left].
  pose proof (fetch_files_faults self files main_filings _ Ht) as Hloop.
  destruct (fetch_files self files main_filings _) as [t' [all_filings|e]];
    cbn [fst snd] in *; [|done].
  destruct Hloop as [Hq|(t'' & u & e & _ & _ & _ & [=])]. by left.
Qed.

(** When the call returns a list, every entry of the file list of the
    primary document was requested. *)
Lemma get_filings_Ok_inv {lib : PyLib} (self : EDGARClient) (cik : string)
    (start_date end_date : option datetime) (forms : option (list string))
    (limit : option Z) (l : list Filing) :
  returned (get_filings self cik start_date end_date forms limit) = Ok l →
  ∃ n doc filings files_value files urls,
    py_int cik = Some n
    ∧ fetch_json self (primary_url n) = Ok doc
    ∧ getitem_key doc "filings" = Ok filings
    ∧ getitem_key filings "files" = Ok files_value
    ∧ py_iter files_value = Ok files
    ∧ requests (get_filings self cik start_date end_date forms limit)
      = primary_url n :: urls
    ∧ Forall2 requested_for files urls.
Proof.
  unfold returned, requests. rewrite get_filings_steps. intros H.
  destruct (py_int cik) as [n|]; [|discriminate].
  destruct (get_outcome self (primary_url n)) as [response|e] eqn:Hget; [|discriminate].
  destruct (json_body response) as [data|e] eqn:Hjson; [|discriminate].
  destruct (getitem_key data "filings" ≫= _) as [main_filings|e]; [|discriminate].
  destruct (getitem_key data "filings" ≫= _) as [files|e] eqn:Hfiles; [|discriminate].
  apply bind_Ok in Hfiles as (filings & Hfilings & Hfiles).
  apply bind_Ok in Hfiles as (files_value & Hvalue & Hiter).
  destruct (fetch_files self files main_filings _) as [t' [all_filings|e]] eqn:Hloop;
    [|discriminate].
  apply fetch_files_Ok_inv in Hloop as (ls & urls & _ & _ & -> & Hurls).
  exists n, data, filings, files_value, files, urls. repeat split; try done.
  apply fetch_json_Ok. eauto.
Qed.

(** C3.  A request of [get_filings] that fails, be it the one for the
    primary document or one for an overflow document, makes the call raise
    the exception of that request, whatever the filters; so does a body that
    does not decode.  When the call returns a list, every entry of the file
    list was requested and every request was answered with a document: no
    overflow document is passed over and no list stands in for a fault. *)
Theorem fetch_failure_propagates {lib : PyLib} (self : EDGARClient) (cik : string)
    (start_date end_date : option datetime) (forms : option (list string))
    (limit : option Z) :
  (∀ url e, url ∈ requests (get_filings self cik start_date end_date forms limit) →
     get_outcome self url = Raise e →
     returned (get_filings self cik start_date end_date forms limit) = Raise e)
  ∧ (∀ url e, url ∈ requests (get_filings self cik start_date end_date forms limit) →
       fetch_json self url = Raise e →
       returned (get_filings self cik start_date end_date forms limit) = Raise e)
  ∧ (∀ l, returned (get_filings self cik start_date end_date forms limit) = Ok l →
       ∃ n doc filings files_value files urls,
         py_int cik = Some n
         ∧ fetch_json self (primary_url n) = Ok doc
         ∧ getitem_key doc "filings" = Ok filings
         ∧ getitem_key filings "files" = Ok files_value
         ∧ py_iter files_value = Ok files
         ∧ requests (get_filings self cik start_date end_date forms limit)
           = primary_url n :: urls
         ∧ Forall2 requested_for files urls
         ∧ Forall (λ u, ∃ doc, fetch_json self u = Ok doc)
             (requests (get_filings self cik start_date end_date forms limit))).
Proof.
  pose proof (get_filings_faults self cik start_date end_date forms limit) as Hf.
  assert (Hjson : ∀ url e,
            url ∈ requests (get_filings self cik start_date end_date forms limit) →
            fetch_json self url = Raise e →
            returned (get_filings self cik start_date end_date forms limit) = Raise e).
  { intros url e Hin Hurl.
    assert (Hno : ∀ t, Forall (λ u, ∃ doc, fetch_json self u = Ok doc) t → url ∉ t).
    { intros t Ht Hu. rewrite Forall_forall in Ht.
      destruct (Ht url Hu) as [doc Hdoc]. congruence. }
    destruct Hf as [Hq|(t' & u & e' & Ht & Hq & Hu & Hr)]; [by apply Hno in Hq|].
    rewrite Ht in Hin. apply elem_of_app in Hin as [Hin|Hin]; [by apply Hno in Hq|].
    apply list_elem_of_singleton in Hin as ->. congruence. }
  split; [|split]; [|done|].
  - intros url e Hin Hurl. apply (Hjson url); [done|]. by apply fetch_json_get_outcome.
  - intros l Hl.
    destruct (get_filings_Ok_inv _ _ _ _ _ _ _ Hl)
      as (n & doc & filings & files_value & files & urls & H1 & H2 & H3 & H4 & H5 & H6 & H7).
    exists n, doc, filings, files_value, files, urls. repeat split; try done.
    destruct Hf as [Hq|(t' & u & e' & _ & _ & _ & Hr)]; [done | congruence].
Qed.

Lemma fetch_failure_propagates_witness :
  returned (get_filings (lib := sample_lib) server_overflow_lost "320193"
              None None (Some ["10-K"]) (Some 1%Z))
  = Raise (HTTPError 404).
Proof.
  apply (proj1 (fetch_failure_propagates (lib := sample_lib) server_overflow_lost
                  "320193" None None (Some ["10-K"]) (Some 1%Z))
           "https://data.sec.gov/submissions/CIK0000320193-submissions-001.json"
           (HTTPError 404)).
  - vm_compute. right. left.
  - vm_compute. reflexivity.
Defined.

(** ** Decimal strings *)

Lemma str_app_cons (x : ascii) (a b : string) : String x a +:+ b = String x (a +:+ b).
Proof. reflexivity. Qed.

Lemma str_app_nil_l (b : string) : "" +:+ b = b.
Proof. reflexivity. Qed.

Lemma str_app_assoc (a b c : string) : (a +:+ b) +:+ c = a +:+ b +:+ c.
Proof.
  induction a as [|x a IH]; [done|]. rewrite !str_app_cons. by f_equal.
Qed.

Lemma str_app_nil_r (a : string) : a +:+ "" = a.
Proof.
  induction a as [|x a IH]; [done|]. rewrite str_app_cons. by f_equal.
Qed.

Lemma length_digits_of (k : nat) (n : Z) : String.length (digits_of k n) = k.
Proof. induction k; simpl; [done | by f_equal]. Qed.

(** A digit character, its class and its value. *)
Lemma digit_char_spec (d : Z) :
  (0 ≤ d < 10)%Z →
  is_digit (digit_char d) = true ∧ digit_val (digit_char d) = d
  ∧ is_int_space (digit_char d) = false
  ∧ digit_char d ≠ "-"%char ∧ digit_char d ≠ "+"%char ∧ digit_char d ≠ "_"%char.
Proof.
  intros Hd.
  assert (d = 0 ∨ d = 1 ∨ d = 2 ∨ d = 3 ∨ d = 4 ∨ d = 5 ∨ d = 6 ∨ d = 7 ∨ d = 8 ∨ d = 9)%Z
    as Hc by lia.
  repeat destruct Hc as [->|Hc]; try subst d; by vm_compute.
Qed.

Lemma mod10_range (n : Z) : (0 ≤ n mod 10 < 10)%Z.
Proof. apply Z.mod_pos_bound. lia. Qed.

Lemma all_digits_digits_of (k : nat) (n : Z) : all_digits (digits_of k n) = true.
Proof.
  induction k as [|k IH]; simpl; [done|]. rewrite IH.
  by destruct (digit_char_spec _ (mod10_range (n / 10 ^ Z.of_nat k))) as (-> & _).
Qed.

(** The digits, least significant last. *)
Lemma digits_of_snoc (k : nat) (n : Z) :
  digits_of (S k) n = digits_of k (n / 10) +:+ String (digit_char (n mod 10)) "".
Proof.
  induction k as [|k IH].
  - simpl. by rewrite Z.div_1_r.
  - change (digits_of (S (S k)) n)
      with (String (digit_char ((n / 10 ^ Z.of_nat (S k)) mod 10)) (digits_of (S k) n)).
    rewrite IH. cbn [digits_of]. rewrite str_app_cons. do 3 f_equal.
    rewrite Z.div_div by lia. f_equal.
    rewrite Nat2Z.inj_succ, Z.pow_succ_r by lia. done.
Qed.

(** Leading zeros. *)
Lemma digits_of_lead (d j : nat) (n : Z) :
  (0 ≤ n < 10 ^ Z.of_nat j)%Z → digits_of (d + j) n = zeros d +:+ digits_of j n.
Proof.
  intros Hn. induction d as [|d IH]; [done|].
  cbn [Nat.add digits_of zeros]. rewrite str_app_cons, IH. f_equal.
  rewrite Z.div_small; [done|]. split; [lia|].
  eapply Z.lt_le_trans; [apply Hn|]. apply Z.pow_le_mono_r; lia.
Qed.

Lemma dec_digits_spec (fuel : nat) (n : Z) (acc : string) :
  (1 ≤ fuel)%nat → (0 ≤ n < 2 ^ Z.of_nat fuel)%Z →
  ∃ j : nat, (1 ≤ j)%nat ∧ (n < 10 ^ Z.of_nat j)%Z
    ∧ (j = 1%nat ∨ 10 ^ (Z.of_nat j - 1) ≤ n)%Z
    ∧ dec_digits fuel n acc = digits_of j n +:+ acc.
Proof.
  revert n acc. induction fuel as [|fuel IH]; intros n acc Hfuel Hn; [lia|].
  cbn [dec_digits]. destruct (Z.ltb_spec n 10) as [Hlt|Hge].
    + exists 1%nat. repeat split; [lia | lia | by left |].
      simpl. by rewrite Z.div_1_r.
    + assert (Hq : (1 ≤ n / 10 < 2 ^ Z.of_nat fuel)%Z).
      { rewrite Nat2Z.inj_succ, Z.pow_succ_r in Hn by lia.
        split; [apply Z.div_le_lower_bound; lia|]. apply Z.div_lt_upper_bound; lia. }
      destruct (IH (n / 10)%Z (String (digit_char (n mod 10)) acc))
        as (j & Hj & Hlt & Hmin & ->); [|lia|].
      { destruct fuel; [simpl in Hq; lia | lia]. }
      rename Hlt into Hlt10.
      exists (S j). rewrite digits_of_snoc, str_app_assoc, str_app_cons, str_app_nil_l.
      split; [lia|]. split; [|split; [|done]].
      * rewrite Nat2Z.inj_succ, Z.pow_succ_r by lia.
        pose proof (Z.div_mod n 10). pose proof (mod10_range n). lia.
      * right. replace (Z.of_nat (S j) - 1)%Z with (Z.of_nat j) by lia.
        destruct Hmin as [->|Hmin]; [simpl; lia|].
        replace (Z.of_nat j) with (Z.succ (Z.of_nat j - 1)) by lia.
        rewrite Z.pow_succ_r by lia.
        pose proof (Z.div_mod n 10). pose proof (mod10_range n). lia.
Qed.

Lemma dec_spec (n : Z) :
  (0 ≤ n)%Z →
  ∃ j : nat, (1 ≤ j)%nat ∧ (n < 10 ^ Z.of_nat j)%Z
    ∧ (j = 1%nat ∨ 10 ^ (Z.of_nat j - 1) ≤ n)%Z
    ∧ dec n = digits_of j n.
Proof.
  intros Hn. unfold dec.
  destruct (dec_digits_spec (S (Z.to_nat (Z.log2 n))) n "") as (j & H1 & H2 & H3 & H4).
  - lia.
  - pose proof (Z.log2_nonneg n). rewrite Nat2Z.inj_succ, Z2Nat.id by done.
    destruct (Z.eq_dec n 0%Z) as [->|Hne]; [done|].
    split; [done|]. apply Z.log2_spec. lia.
  - exists j. by rewrite str_app_nil_r in H4.
Qed.

(** Zero padding to a width that the number fits gives exactly the digits
    of that width. *)
Lemma format_0wd_digits (w : nat) (n : Z) :
  (1 ≤ w)%nat → (0 ≤ n < 10 ^ Z.of_nat w)%Z → format_0wd w n = digits_of w n.
Proof.
  intros Hw Hn. unfold format_0wd.
  destruct (Z.ltb_spec n 0%Z) as [?|_]; [lia|].
  destruct (dec_spec n) as (j & Hj & Hlt & Hmin & ->); [lia|].
  rewrite length_digits_of.
  assert (j ≤ w)%nat as Hjw.
  { destruct Hmin as [->|Hmin]; [done|].
    assert (Z.of_nat j - 1 < Z.of_nat w)%Z; [|lia].
    apply (Z.pow_lt_mono_r_iff 10); lia. }
  rewrite <- digits_of_lead by lia. f_equal. lia.
Qed.

Lemma int_digits_digits_of (k : nat) (n acc : Z) (b : bool) :
  (1 ≤ k)%nat ∨ b = true →
  int_digits (digits_of k n) acc b = Some (acc * 10 ^ Z.of_nat k + n mod 10 ^ Z.of_nat k)%Z.
Proof.
  revert acc b. induction k as [|k IH]; intros acc b Hk.
  - destruct Hk as [?| ->]; [lia|]. simpl. rewrite Z.mod_1_r. f_equal. lia.
  - cbn [digits_of int_digits].
    destruct (digit_char_spec _ (mod10_range (n / 10 ^ Z.of_nat k)))
      as (-> & -> & _).
    rewrite IH by (by right). f_equal.
    rewrite Nat2Z.inj_succ, Z.pow_succ_r by lia.
    rewrite (Z.mul_comm 10 (10 ^ Z.of_nat k)), Z.rem_mul_r by lia. ring.
Qed.

Lemma py_int_digit_head (c : ascii) (rest : string) :
  is_digit c = true → py_int (String c rest) = int_digits (String c rest) 0 false.
Proof.
  destruct c as [[] [] [] [] [] [] [] []]; try discriminate; reflexivity.
Qed.

Lemma py_int_digits_of (k : nat) (n : Z) :
  (1 ≤ k)%nat → py_int (digits_of k n) = Some (n mod 10 ^ Z.of_nat k)%Z.
Proof.
  intros Hk. destruct k as [|k]; [lia|].
  pose proof (int_digits_digits_of (S k) n 0%Z false) as Hd.
  cbn [digits_of] in *. rewrite py_int_digit_head.
  - rewrite Hd by (left; lia). f_equal.
  - by destruct (digit_char_spec _ (mod10_range (n / 10 ^ Z.of_nat k))) as (-> & _).
Qed.

(** The identifier of a registrant numbered below [10^10]. *)
Lemma format_010d_spec (n : Z) :
  (0 ≤ n < 10 ^ 10)%Z →
  String.length (format_010d n) = 10%nat
  ∧ all_digits (format_010d n) = true
  ∧ py_int (format_010d n) = Some n.
Proof.
  intros Hn. unfold format_010d. rewrite format_0wd_digits by (done || lia).
  rewrite length_digits_of, all_digits_digits_of, py_int_digits_of by lia.
  repeat split. f_equal. apply Z.mod_small. lia.
Qed.

(** ** The identifier *)

(** The loop over the file list adds to the requests sent before it. *)
Lemma fetch_files_extends {lib : PyLib} (self : EDGARClient) (files : list json)
    (acc : list Filing) (t : list string) :
  ∃ more, (fetch_files self files acc t).1 = t ++ more.
Proof.
  revert acc t. induction files as [|file files IH]; intros acc t.
  - exists []. by rewrite app_nil_r.
  - cbn [fetch_files]. rewrite io_bind_lift.
    destruct (getitem_key file "name") as [name|e];
      [|exists []; by rewrite app_nil_r].
    rewrite io_bind_get.
    destruct (get_outcome self _) as [response|e]; [|by eexists].
    rewrite io_bind_lift.
    destruct (json_body response) as [file_data|e]; [|by eexists].
    rewrite io_bind_lift.
    destruct (_parse_filings file_data) as [l|e]; [|by eexists].
    destruct (IH (acc ++ l) (t ++ [urljoin DATA_URL ("submissions/" +:+ fstring name)]))
      as [more ->].
    eexists. by rewrite <- app_assoc.
Qed.

(** C5, as amended.  An identifier that [int] does not take makes the call
    raise [ValueError] with no request sent.  An identifier that stands for
    a number [n] is formatted before the location of the primary document is
    built from it, and the first request goes to that location; when
    [0 <= n < 10^10] the formatted identifier has exactly ten characters,
    all of them decimal digits, and stands for [n]: [320193] becomes
    ["0000320193"]. *)
Theorem identifier_normalized {lib : PyLib} (self : EDGARClient) (cik : string)
    (start_date end_date : option datetime) (forms : option (list string))
    (limit : option Z) :
  (py_int cik = None →
     get_filings self cik start_date end_date forms limit [] = ([], Raise ValueError))
  ∧ (∀ n, py_int cik = Some n →
       (∃ rest, requests (get_filings self cik start_date end_date forms limit)
                = primary_url n :: rest)
       ∧ primary_url n = urljoin DATA_URL ("submissions/CIK" +:+ format_010d n +:+ ".json")
       ∧ ((0 ≤ n < 10 ^ 10)%Z →
            String.length (format_010d n) = 10%nat
            ∧ all_digits (format_010d n) = true
            ∧ py_int (format_010d n) = Some n))
  ∧ format_010d 320193 = "0000320193".
Proof.
  split; [|split; [|by vm_compute]].
  - intros Hcik. by rewrite get_filings_steps, Hcik.
  - intros n Hcik. split; [|split; [done | apply format_010d_spec]].
    unfold requests. rewrite get_filings_steps, Hcik.
    destruct (get_outcome self (primary_url n)) as [response|e]; [|by exists []].
    destruct (json_body response) as [data|e]; [|by exists []].
    destruct (getitem_key data "filings" ≫= _) as [main_filings|e]; [|by exists []].
    destruct (getitem_key data "filings" ≫= _) as [files|e]; [|by exists []].
    destruct (fetch_files_extends self files main_filings ([] ++ [primary_url n]))
      as [more Hmore].
    destruct (fetch_files self files main_filings _) as [t' r].
    cbn [fst] in Hmore. subst t'. exists more. by destruct r.
Qed.

Lemma identifier_normalized_witness :
  String.length (format_010d 320193) = 10%nat
  ∧ all_digits (format_010d 320193) = true
  ∧ py_int (format_010d 320193) = Some 320193%Z.
Proof.
  apply (proj2 (proj2 (proj1 (proj2
           (identifier_normalized (lib := sample_lib) server_two " 320193" None None
              None None)) 320193%Z eq_refl))).
  lia.
Defined.

(** A name that is not a number: no request is sent. *)
Example ticker_is_rejected :
  get_filings (lib := sample_lib) server_two "AAPL" None None None None []
  = ([], Raise ValueError).
Proof. reflexivity. Qed.

(** A number of eleven digits is taken and formatted with eleven characters,
    and a negative number is taken and formatted with its sign; the request
    is sent in both cases. *)
Lemma identifier_not_fixed_width :
  py_int "12345678901" = Some 12345678901%Z
  ∧ format_010d 12345678901 = "12345678901"
  ∧ String.length (format_010d 12345678901) = 11%nat
  ∧ requests (get_filings (lib := sample_lib) server_two "12345678901" None None None None)
    = ["https://data.sec.gov/submissions/CIK12345678901.json"]
  ∧ py_int "-5" = Some (-5)%Z
  ∧ format_010d (-5) = "-000000005"
  ∧ all_digits (format_010d (-5)) = false
  ∧ requests (get_filings (lib := sample_lib) server_two "-5" None None None None)
    = ["https://data.sec.gov/submissions/CIK-000000005.json"].
Proof. repeat split; vm_compute; reflexivity. Qed.

(** ** Matching the expression of a format *)

Lemma rmatch_Chr {A} (c : ascii) (rest : string) (caps : list (string * string))
    (k : string → string → list (string * string) → option A) :
  rmatch (Chr c) (String c rest) caps k = k (String c "") rest caps.
Proof. unfold Chr. cbn [rmatch]. by rewrite Ascii.eqb_refl. Qed.

(** Every number of a range satisfies what the numbers listed satisfy. *)
Lemma range_cases (P : Z → Prop) (lo : Z) (len : nat) :
  Forall P ((λ i, lo + Z.of_nat i)%Z <$> seq 0 len) →
  ∀ z, (lo ≤ z < lo + Z.of_nat len)%Z → P z.
Proof.
  intros H z Hz. rewrite Forall_forall in H. apply H.
  apply list_elem_of_fmap. exists (Z.to_nat (z - lo)). split; [lia|].
  apply elem_of_seq. lia.
Qed.

Ltac directive_case :=
  intros A rest caps k a Hk; vm_compute in Hk |- *; rewrite Hk; reflexivity.

Ltac directive_range lo len :=
  apply (range_cases _ lo len);
  let l := eval vm_compute in ((λ i, lo + Z.of_nat i)%Z <$> seq 0 len) in
  change ((λ i, lo + Z.of_nat i)%Z <$> seq 0 len) with l;
  repeat (constructor; [directive_case|]); constructor.

Lemma rmatch_m : ∀ z, (1 ≤ z < 1 + Z.of_nat 12)%Z → directive_matches re_m "m" z.
Proof. directive_range 1%Z 12%nat. Qed.

Lemma rmatch_d : ∀ z, (1 ≤ z < 1 + Z.of_nat 31)%Z → directive_matches re_d "d" z.
Proof. directive_range 1%Z 31%nat. Qed.

Lemma rmatch_H : ∀ z, (0 ≤ z < 0 + Z.of_nat 24)%Z → directive_matches re_H "H" z.
Proof. directive_range 0%Z 24%nat. Qed.

Lemma rmatch_M : ∀ z, (0 ≤ z < 0 + Z.of_nat 60)%Z → directive_matches re_M "M" z.
Proof. directive_range 0%Z 60%nat. Qed.

Lemma rmatch_S : ∀ z, (0 ≤ z < 0 + Z.of_nat 60)%Z → directive_matches re_S "S" z.
Proof. directive_range 0%Z 60%nat. Qed.

(** The year directive takes any four digits. *)
Lemma rmatch_Y {A} (y : Z) (rest : string) (caps : list (string * string))
    (k : string → string → list (string * string) → option A) (a : A) :
  k (digits_of 4 y) rest (("Y", digits_of 4 y) :: caps) = Some a →
  rmatch re_Y (digits_of 4 y +:+ rest) caps k = Some a.
Proof.
  intros Hk. unfold re_Y, D. cbn [digits_of] in *.
  rewrite !str_app_cons. cbn [rmatch].
  repeat match goal with
  | |- context [is_digit (digit_char ?d)] =>
      rewrite (proj1 (digit_char_spec d (mod10_range _)))
  end.
  exact Hk.
Qed.


Lemma rmatch_ChrI {A} (upper lower : ascii) (rest : string)
    (caps : list (string * string))
    (k : string → string → list (string * string) → option A) :
  rmatch (ChrI upper lower) (String upper rest) caps k = k (String upper "") rest caps.
Proof. unfold ChrI. cbn [rmatch]. by rewrite Ascii.eqb_refl. Qed.

(** The zone directive takes the offset ["+0000"] at the end of the text. *)
Lemma rmatch_z_utc {A} (caps : list (string * string))
    (k : string → string → list (string * string) → option A) (a : A) :
  k "+0000" "" (("z", "+0000") :: caps) = Some a →
  rmatch re_z "+0000" caps k = Some a.
Proof. intros Hk. vm_compute in Hk |- *. rewrite Hk. reflexivity. Qed.

(** The wall-clock text of a valid time followed by ["+0000"] matches the
    expression of the format, with the groups holding its fields. *)
Lemma full_match_offset (y m d h mi s : Z) :
  (1 ≤ m ≤ 12)%Z → (1 ≤ d ≤ 31)%Z → (0 ≤ h ≤ 23)%Z → (0 ≤ mi ≤ 59)%Z → (0 ≤ s ≤ 59)%Z →
  full_match re_datetime_z
    (digits_of 4 y +:+ String "-" (digits_of 2 m +:+ String "-" (digits_of 2 d
     +:+ String "T" (digits_of 2 h +:+ String ":" (digits_of 2 mi
     +:+ String ":" (digits_of 2 s +:+ "+0000"))))))
  = Some [("z", "+0000"); ("S", digits_of 2 s); ("M", digits_of 2 mi);
          ("H", digits_of 2 h); ("d", digits_of 2 d); ("m", digits_of 2 m);
          ("Y", digits_of 4 y)].
Proof.
  intros Hm Hd Hh Hmi Hs. unfold full_match.
  match goal with
  | |- match ?r with _ => _ end = Some ?caps =>
      assert (r = Some (EmptyString, caps)) as ->; [|done]
  end.
  unfold re_datetime_z. cbn [rmatch].
  apply rmatch_Y. rewrite rmatch_Chr.
  apply rmatch_m; [lia|]. rewrite rmatch_Chr.
  apply rmatch_d; [lia|]. rewrite rmatch_ChrI.
  apply rmatch_H; [lia|]. rewrite rmatch_Chr.
  apply rmatch_M; [lia|]. rewrite rmatch_Chr.
  apply rmatch_S; [lia|].
  apply rmatch_z_utc. reflexivity.
Qed.

Lemma days_in_month_le (y m : Z) : (days_in_month y m ≤ 31)%Z.
Proof.
  unfold days_in_month.
  destruct (m =? 2)%Z; [destruct (is_leap y); lia|].
  destruct (_ || _); lia.
Qed.

Lemma valid_date_bounds (y m d : Z) :
  valid_date y m d = true → (1 ≤ y ≤ 9999 ∧ 1 ≤ m ≤ 12 ∧ 1 ≤ d ≤ 31)%Z.
Proof.
  unfold valid_date. rewrite !andb_true_iff, !Z.leb_le.
  pose proof (days_in_month_le y m). lia.
Qed.

Lemma valid_time_bounds (h mi s us : Z) :
  valid_time h mi s us = true → (0 ≤ h ≤ 23 ∧ 0 ≤ mi ≤ 59 ∧ 0 ≤ s ≤ 59)%Z.
Proof. unfold valid_time. rewrite !andb_true_iff, !Z.leb_le. lia. Qed.

Lemma int_group_digits (name : string) (k : nat) (z : Z)
    (caps : list (string * string)) :
  (1 ≤ k)%nat → (0 ≤ z < 10 ^ Z.of_nat k)%Z →
  group name caps = Some (digits_of k z) → int_group name caps = Some z.
Proof.
  intros Hk Hz Hg. unfold int_group. rewrite Hg. cbn [mbind option_bind].
  rewrite py_int_digits_of by done. f_equal. by apply Z.mod_small.
Qed.

(** The wall-clock text of a valid time, in digits. *)
Lemma wall_clock_text_digits (y m d h mi s : Z) (tail : string) :
  valid_date y m d = true → valid_time h mi s 0 = true →
  wall_clock_text y m d h mi s +:+ tail
  = digits_of 4 y +:+ String "-" (digits_of 2 m +:+ String "-" (digits_of 2 d
    +:+ String "T" (digits_of 2 h +:+ String ":" (digits_of 2 mi
    +:+ String ":" (digits_of 2 s +:+ tail))))).
Proof.
  intros Hd Ht. apply valid_date_bounds in Hd. apply valid_time_bounds in Ht.
  unfold wall_clock_text. rewrite !format_0wd_digits by (simpl; lia).
  by rewrite !str_app_assoc.
Qed.

(** Parsing the text with the numeric offset gives the time, in UTC. *)
Lemma strptime_offset_timestamp (y m d h mi s : Z) :
  valid_date y m d = true → valid_time h mi s 0 = true →
  strptime_datetime_z (offset_timestamp y m d h mi s)
  = Some (mk_datetime y m d h mi s 0 (Some 0%Z)).
Proof.
  intros Hd Ht. unfold offset_timestamp, strptime_datetime_z.
  rewrite wall_clock_text_digits by done.
  pose proof (valid_date_bounds _ _ _ Hd) as (Hy & Hm & Hday).
  pose proof (valid_time_bounds _ _ _ _ Ht) as (Hh & Hmi & Hs).
  rewrite full_match_offset by lia. cbn [mbind option_bind].
  rewrite (int_group_digits "Y" 4 y) by (done || simpl; lia). cbn [option_bind].
  rewrite (int_group_digits "m" 2 m) by (done || simpl; lia). cbn [option_bind].
  rewrite (int_group_digits "d" 2 d) by (done || simpl; lia). cbn [option_bind].
  rewrite (int_group_digits "H" 2 h) by (done || simpl; lia). cbn [option_bind].
  rewrite (int_group_digits "M" 2 mi) by (done || simpl; lia). cbn [option_bind].
  rewrite (int_group_digits "S" 2 s) by (done || simpl; lia). cbn [option_bind].
  change (group "z" _) with (Some "+0000"). cbv [mbind option_bind].
  change (gmtoff_micros "+0000") with (Some 0%Z). cbv beta iota.
  by rewrite Hd, Ht.
Qed.

(** ** The rewrite of the zone suffix *)

Lemma no_dot_app (a b : string) : no_dot (a +:+ b) = no_dot a && no_dot b.
Proof.
  induction a as [|c a IH]; [done|].
  rewrite str_app_cons. cbn [no_dot]. by rewrite IH, andb_assoc.
Qed.

Lemma no_dot_digits_of (k : nat) (n : Z) : no_dot (digits_of k n) = true.
Proof.
  induction k as [|k IH]; [done|]. cbn [digits_of no_dot]. rewrite IH, andb_true_r.
  pose proof (mod10_range (n / 10 ^ Z.of_nat k)) as Hr.
  assert (∀ d, (0 ≤ d < 10)%Z → negb (Ascii.eqb "." (digit_char d)) = true) as Hd.
  { intros d Hd.
    assert (d = 0 ∨ d = 1 ∨ d = 2 ∨ d = 3 ∨ d = 4 ∨ d = 5 ∨ d = 6 ∨ d = 7
            ∨ d = 8 ∨ d = 9)%Z as Hc by lia.
    repeat destruct Hc as [->|Hc]; try subst d; reflexivity. }
  by apply Hd.
Qed.

(** In a text without a full stop followed by [".000Z"] the suffix is the
    one occurrence that [replace] finds. *)
Lemma replace_zone_suffix (p : string) :
  no_dot p = true → py_replace ".000Z" "+0000" (p +:+ ".000Z") = p +:+ "+0000".
Proof.
  unfold py_replace. induction p as [|c p IH]; intros Hp; [reflexivity|].
  cbn [no_dot] in Hp. apply andb_true_iff in Hp as [Hc Hp].
  rewrite !str_app_cons. cbn [replace_from startswith].
  apply negb_true_iff in Hc. rewrite Hc. cbn [andb]. f_equal. by apply IH.
Qed.

Lemma no_dot_wall_clock_text (y m d h mi s : Z) :
  valid_date y m d = true → valid_time h mi s 0 = true →
  no_dot (wall_clock_text y m d h mi s) = true.
Proof.
  intros Hd Ht. rewrite <- (str_app_nil_r (wall_clock_text y m d h mi s)).
  rewrite wall_clock_text_digits by done.
  repeat (rewrite no_dot_app, no_dot_digits_of; cbn [andb no_dot Ascii.eqb negb]).
  reflexivity.
Qed.

(** Whatever text is parsed with the zone directive, the object is aware. *)
Lemma strptime_datetime_z_aware (s : string) (t : datetime) :
  strptime_datetime_z s = Some t → aware t.
Proof.
  unfold strptime_datetime_z, aware. cbv [mbind option_bind]. intros H.
  repeat match type of H with
  | match ?o with Some _ => _ | None => None end = Some _ =>
      destruct o; [|discriminate]
  end.
  match type of H with
  | (if ?b then _ else _) = _ => destruct b; [|discriminate]
  end.
  injection H as <-. by eexists.
Qed.

(** C6.  The text the service sends for a valid time, which ends in
    [".000Z"], has that suffix rewritten to ["+0000"] before it is parsed;
    the parse succeeds and gives the aware object of that time at offset
    zero, the object that the text with the numeric offset parses to.  In
    particular ["2024-03-15T16:30:00.000Z"] and ["2024-03-15T16:30:00+0000"]
    give the same instant.  More generally any text without a full stop
    before its suffix [".000Z"] is parsed as the text with the suffix
    ["+0000"], and whatever the normalizer parses is aware. *)
Theorem acceptance_time_rewrite (y m d h mi s : Z) :
  valid_date y m d = true → valid_time h mi s 0 = true →
  py_replace ".000Z" "+0000" (upstream_timestamp y m d h mi s)
  = offset_timestamp y m d h mi s
  ∧ parse_acceptance (JStr (upstream_timestamp y m d h mi s))
    = Ok (mk_datetime y m d h mi s 0 (Some 0%Z))
  ∧ strptime_datetime_z (offset_timestamp y m d h mi s)
    = Some (mk_datetime y m d h mi s 0 (Some 0%Z))
  ∧ aware (mk_datetime y m d h mi s 0 (Some 0%Z))
  ∧ upstream_timestamp 2024 3 15 16 30 0 = "2024-03-15T16:30:00.000Z"
  ∧ offset_timestamp 2024 3 15 16 30 0 = "2024-03-15T16:30:00+0000"
  ∧ (∀ p, no_dot p = true →
       parse_acceptance (JStr (p +:+ ".000Z"))
       = or_raise ValueError (strptime_datetime_z (p +:+ "+0000")))
  ∧ (∀ v t, parse_acceptance v = Ok t → aware t).
Proof.
  intros Hd Ht.
  assert (Hr : py_replace ".000Z" "+0000" (upstream_timestamp y m d h mi s)
               = offset_timestamp y m d h mi s).
  { apply replace_zone_suffix. by apply no_dot_wall_clock_text. }
  pose proof (strptime_offset_timestamp y m d h mi s Hd Ht) as Hp.
  split; [done|]. split; [|split; [done|]].
  - unfold parse_acceptance. by rewrite Hr, Hp.
  - split; [by eexists|]. split; [by vm_compute|]. split; [by vm_compute|]. split.
    + intros p Hdot. unfold parse_acceptance. by rewrite replace_zone_suffix.
    + intros v t Hv. destruct v; try discriminate. simpl in Hv.
      apply or_raise_Ok in Hv. by eapply strptime_datetime_z_aware.
Qed.

Lemma acceptance_time_rewrite_witness :
  py_replace ".000Z" "+0000" (upstream_timestamp 2024 3 15 16 30 0)
  = offset_timestamp 2024 3 15 16 30 0
  ∧ parse_acceptance (JStr (upstream_timestamp 2024 3 15 16 30 0))
    = Ok (mk_datetime 2024 3 15 16 30 0 0 (Some 0%Z))
  ∧ strptime_datetime_z (offset_timestamp 2024 3 15 16 30 0)
    = Some (mk_datetime 2024 3 15 16 30 0 0 (Some 0%Z))
  ∧ aware (mk_datetime 2024 3 15 16 30 0 0 (Some 0%Z))
  ∧ upstream_timestamp 2024 3 15 16 30 0 = "2024-03-15T16:30:00.000Z"
  ∧ offset_timestamp 2024 3 15 16 30 0 = "2024-03-15T16:30:00+0000"
  ∧ (∀ p, no_dot p = true →
       parse_acceptance (JStr (p +:+ ".000Z"))
       = or_raise ValueError (strptime_datetime_z (p +:+ "+0000")))
  ∧ (∀ v t, parse_acceptance v = Ok t → aware t).
Proof.
  apply (acceptance_time_rewrite 2024 3 15 16 30 0); reflexivity.
Defined.

(** The two texts of the specification, parsed by the normalizer and by
    [strptime]. *)
Example acceptance_same_instant :
  parse_acceptance (JStr "2024-03-15T16:30:00.000Z")
  = Ok (mk_datetime 2024 3 15 16 30 0 0 (Some 0%Z))
  ∧ or_raise ValueError (strptime_datetime_z "2024-03-15T16:30:00+0000")
    = Ok (mk_datetime 2024 3 15 16 30 0 0 (Some 0%Z))
  ∧ instant (mk_datetime 2024 3 15 16 30 0 0 (Some 0%Z)) = Some 63846203400000000%Z.
Proof. repeat split; vm_compute; reflexivity. Qed.

(** ** The filter stage within [get_filings] *)

Lemma strptime_date_naive (s : string) (d : datetime) :
  strptime_date s = Some d → naive d.
Proof.
  unfold strptime_date, naive. cbv [mbind option_bind]. intros H.
  repeat match type of H with
  | match ?o with Some _ => _ | None => None end = Some _ =>
      destruct o; [|discriminate]
  end.
  match type of H with
  | (if ?b then _ else _) = _ => destruct b; [|discriminate]
  end.
  by injection H as <-.
Qed.

(** Every record that the normalizer returns has a naive filing date. *)
Lemma parse_filings_naive {lib : PyLib} (data : json) (filings : list Filing) :
  _parse_filings data = Ok filings → Forall (λ f, naive (filing_date f)) filings.
Proof.
  unfold _parse_filings. intros H. apply bind_Ok in H as (n & _ & H).
  apply Forall_forall. intros f Hf.
  destruct (parse_loop_elem _ _ _ _ _ _ H Hf) as [Hin|(i & _ & Hi)];
    [by apply elem_of_nil in Hin|].
  apply parse_record_Ok in Hi as (vfd & vat & vsz & _ & _ & _ & _ & _ & _ & Hfd & _).
  destruct vfd; try discriminate. simpl in Hfd. apply or_raise_Ok in Hfd.
  by eapply strptime_date_naive.
Qed.

(** So has every record of the aggregated sequence. *)
Lemma aggregated_naive {lib : PyLib} (self : EDGARClient) (cik : string)
    (all_filings : list Filing) :
  returned (get_filings self cik None None None None) = Ok all_filings →
  Forall (λ f, naive (filing_date f)) all_filings.
Proof.
  unfold returned. rewrite get_filings_steps. intros H.
  destruct (py_int cik) as [n|]; [|discriminate].
  destruct (get_outcome self (primary_url n)) as [response|e]; [|discriminate].
  destruct (json_body response) as [data|e]; [|discriminate].
  destruct (getitem_key data "filings" ≫= _) as [main_filings|e] eqn:Hmain;
    [|discriminate].
  apply bind_Ok in Hmain as (filings & _ & Hmain).
  apply bind_Ok in Hmain as (recent & _ & Hmain).
  destruct (getitem_key data "filings" ≫= _) as [files|e]; [|discriminate].
  destruct (fetch_files self files main_filings _) as [t' [l|e]] eqn:Hloop;
    [|discriminate].
  cbn [snd] in H. rewrite filter_loop_no_filters in H. injection H as <-.
  apply fetch_files_Ok_inv in Hloop as (ls & urls & Hls & -> & _ & _).
  apply Forall_app. split; [by eapply parse_filings_naive|].
  apply Forall_concat. clear -Hls.
  induction Hls as [|file l files ls Hfile _ IH]; constructor; [|done].
  unfold overflow_records in Hfile.
  apply bind_Ok in Hfile as (name & _ & Hfile).
  apply bind_Ok in Hfile as (file_data & _ & Hfile).
  by eapply parse_filings_naive.
Qed.

(** A call with filters runs the filter stage on the sequence that the call
    without filters returns. *)
Lemma get_filings_filter_stage {lib : PyLib} (self : EDGARClient) (cik : string)
    (start_date end_date : option datetime) (forms : option (list string))
    (limit : option Z) :
  returned (get_filings self cik start_date end_date forms limit)
  = returned (get_filings self cik None None None None)
    ≫= λ all_filings, filter_loop start_date end_date forms limit all_filings [].
Proof.
  unfold returned. rewrite !get_filings_steps.
  destruct (py_int cik) as [n|]; [|done].
  destruct (get_outcome self (primary_url n)) as [response|e]; [|done].
  destruct (json_body response) as [data|e]; [|done].
  destruct (getitem_key data "filings" ≫= _) as [main_filings|e]; [|done].
  destruct (getitem_key data "filings" ≫= _) as [files|e]; [|done].
  destruct (fetch_files self files main_filings _) as [t' [l|e]]; [|done].
  cbn [snd]. by rewrite filter_loop_no_filters.
Qed.

(** The filter stage at work in [get_filings]: with naive bounds, a form
    list that is not empty and a limit of at least one, the call returns the
    first [limit] records of the aggregated sequence that pass the inclusion
    test. *)
Lemma get_filings_first_matches {lib : PyLib} (self : EDGARClient) (cik : string)
    (start_date end_date : option datetime) (forms : option (list string))
    (limit : option Z) (all_filings : list Filing) :
  (∀ d, start_date = Some d → naive d) →
  (∀ d, end_date = Some d → naive d) →
  forms ≠ Some [] →
  (∀ n, limit = Some n → (1 ≤ n)%Z) →
  returned (get_filings self cik None None None None) = Ok all_filings →
  returned (get_filings self cik start_date end_date forms limit)
  = Ok (match limit with
        | Some n => take (Z.to_nat n)
                      (List.filter (included start_date end_date forms) all_filings)
        | None => List.filter (included start_date end_date forms) all_filings
        end).
Proof.
  intros Hs He Hforms Hlimit Hall.
  rewrite get_filings_filter_stage, Hall. step.
  rewrite filter_loop_acc; try done.
  - cbn [app length]. destruct limit; [|done]. by rewrite Nat.sub_0_r.
  - by eapply aggregated_naive.
  - intros n Hn. specialize (Hlimit n Hn). cbn [length]. lia.
Qed.
